(** * goquant: cost estimator and order-book ingestion hook

    A shallow embedding of [src/utils/tradingModels.ts] and
    [src/hooks/useOrderbookData.ts].

    - JavaScript numbers are IEEE-754 binary64 values: they are modelled by
      Rocq's primitive [float], so NaN, the infinities, signed zeros and
      rounding behave as they do in the program.
    - Property access on [undefined] raises [TypeError]; functions that index
      arrays return a [result].
    - Texts are held as their UTF-8 bytes.
    - The React hook is a record of its state cells and refs; the browser
      (socket events, timers, clock readings) and React (the effect that
      runs after a render) are the environment of a labelled transition
      system. *)

From Stdlib Require Import ZArith List String Ascii Bool Lia Floats.
From Stdlib Require Import Sorting.Sorted Sorting.Permutation.
Import ListNotations.

Set Warnings "-inexact-float".

(* ================================================================== *)
(** * JavaScript built-ins used by the sources *)
(* ================================================================== *)

Module JS.

(** The JavaScript [number] type. *)
Definition number := float.

Open Scope float_scope.

(** [Math.max(a, b)]: NaN if either argument is NaN; of the two zeros the
    positive one is the larger. *)
Definition Math_max (a b : number) : number :=
  if is_nan a || is_nan b then nan
  else if b <? a then a
  else if b =? a then (if get_sign a then b else a)
  else b.

(** [Math.min(a, b)]: NaN if either argument is NaN; of the two zeros the
    negative one is the smaller. *)
Definition Math_min (a b : number) : number :=
  if is_nan a || is_nan b then nan
  else if a <? b then a
  else if a =? b then (if get_sign a then a else b)
  else b.

(** [Math.sqrt] is the correctly rounded IEEE square root. *)
Definition Math_sqrt (x : number) : number := sqrt x.

(** [Math.abs]. *)
Definition Math_abs (x : number) : number := abs x.

(** [Number.isFinite]. *)
Definition isFinite (x : number) : bool := is_finite x.

(** ToBoolean on a number: [0], [-0] and [NaN] are falsy. *)
Definition truthy (x : number) : bool := negb (is_nan x || is_zero x).

(** [a || b] on numbers. *)
Definition or_else (a b : number) : number := if truthy a then a else b.

(** ** [parseFloat] *)

Close Scope float_scope.
Open Scope Z_scope.

(** The value [m * 10^e] ([m >= 0]) rounded to the nearest binary64 value,
    ties to even. *)
Definition decimal_to_number (m e : Z) : number :=
  match m with
  | Z0 => zero
  | Zpos _ =>
      if 0 <=? e
      then SF2Prim (binary_normalize prec emax (m * 10 ^ e) 0 false)
      else
        let '(q, e', l) := SFdiv_core_binary prec emax m 0 (10 ^ (- e)) 0 in
        SF2Prim (binary_round_aux prec emax false q e' l)
  | Zneg _ => nan
  end.

(** StrWhiteSpaceChar in the ASCII range: TAB, LF, VT, FF, CR, SP. *)
Definition is_ws (c : ascii) : bool :=
  let n := nat_of_ascii c in
  (Nat.eqb n 9 || Nat.eqb n 10 || Nat.eqb n 11 || Nat.eqb n 12
   || Nat.eqb n 13 || Nat.eqb n 32)%bool.

(** StrWhiteSpaceChar of two bytes: U+00A0 (C2 A0). *)
Definition is_ws2 (a b : ascii) : bool :=
  (Nat.eqb (nat_of_ascii a) 194 && Nat.eqb (nat_of_ascii b) 160)%bool.

(** StrWhiteSpaceChar of three bytes: U+1680 (E1 9A 80), U+2000 to U+200A
    (E2 80 80 to E2 80 8A), U+2028 and U+2029 (E2 80 A8, E2 80 A9), U+202F
    (E2 80 AF), U+205F (E2 81 9F), U+3000 (E3 80 80), U+FEFF (EF BB BF). *)
Definition is_ws3 (a b c : ascii) : bool :=
  let x := nat_of_ascii a in
  let y := nat_of_ascii b in
  let z := nat_of_ascii c in
  ((Nat.eqb x 225 && Nat.eqb y 154 && Nat.eqb z 128)
   || (Nat.eqb x 226 && Nat.eqb y 128
       && ((Nat.leb 128 z && Nat.leb z 138) || Nat.eqb z 168 || Nat.eqb z 169
           || Nat.eqb z 175))
   || (Nat.eqb x 226 && Nat.eqb y 129 && Nat.eqb z 159)
   || (Nat.eqb x 227 && Nat.eqb y 128 && Nat.eqb z 128)
   || (Nat.eqb x 239 && Nat.eqb y 187 && Nat.eqb z 191))%bool.

Fixpoint skip_ws (s : string) : string :=
  match s with
  | String a s1 =>
      if is_ws a then skip_ws s1
      else
        match s1 with
        | String b s2 =>
            if is_ws2 a b then skip_ws s2
            else
              match s2 with
              | String c s3 => if is_ws3 a b c then skip_ws s3 else s
              | EmptyString => s
              end
        | EmptyString => s
        end
  | EmptyString => s
  end.

Definition digit_of (c : ascii) : option Z :=
  let n := nat_of_ascii c in
  if (Nat.leb 48 n && Nat.leb n 57)%bool then Some (Z.of_nat (n - 48)) else None.

(** Reads a (possibly empty) run of decimal digits: the accumulated value,
    the number of digits read, and the rest of the text. *)
Fixpoint read_digits (s : string) (acc n : Z) : Z * Z * string :=
  match s with
  | String c s' =>
      match digit_of c with
      | Some d => read_digits s' (10 * acc + d) (n + 1)
      | None => (acc, n, s)
      end
  | EmptyString => (acc, n, s)
  end.

(** An optional sign. *)
Definition read_sign (s : string) : bool * string :=
  match s with
  | String "-"%char s' => (true, s')
  | String "+"%char s' => (false, s')
  | _ => (false, s)
  end.

(** ExponentPart: [e] or [E], an optional sign and at least one digit;
    an incomplete exponent is not part of the literal. *)
Definition read_exponent (s : string) : Z :=
  match s with
  | String c s' =>
      if (Ascii.eqb c "e" || Ascii.eqb c "E")%bool then
        let '(neg, s'') := read_sign s' in
        let '(v, n, _) := read_digits s'' 0 0 in
        if n =? 0 then 0 else if neg then - v else v
      else 0
  | EmptyString => 0
  end.

(** [parseFloat(s)]: leading white space is dropped, the longest prefix that
    is a StrDecimalLiteral is converted, and the result is NaN when there is
    no such prefix. *)
Definition parseFloat (s : string) : number :=
  let '(neg, s0) := read_sign (skip_ws s) in
  let signed (x : number) := if neg then (- x)%float else x in
  if String.prefix "Infinity" s0 then signed infinity
  else
    let '(ip, ni, s1) := read_digits s0 0 0 in
    let '(m, nf, s2) :=
      match s1 with
      | String "."%char s' => read_digits s' ip 0
      | _ => (ip, 0, s1)
      end in
    if ni + nf =? 0 then nan
    else signed (decimal_to_number m (read_exponent s2 - nf)).

Close Scope Z_scope.

(** ** Exceptions *)

Inductive exn := TypeError | SyntaxError.

Inductive result (A : Type) : Type :=
| Ok (a : A)
| Throw (e : exn).
Arguments Ok {A} a.
Arguments Throw {A} e.

Definition bind {A B} (r : result A) (k : A -> result B) : result B :=
  match r with
  | Ok a => k a
  | Throw e => Throw e
  end.

(** ** [Array.prototype.sort] with a comparator

    The sort is stable (ES2019); a comparator result that is NaN counts as
    [+0].  [a] stays in front of a later [b] unless [cmp a b > 0].  For a
    consistent comparator every conforming engine returns this list.  For
    an inconsistent one (here: a list of two or more levels one of whose
    prices is NaN) the language leaves the order to the engine; what this
    function and the engines then share is that the result holds the same
    elements, and nothing more is derived from it below. *)
Section Sort.
Context {A : Type} (cmp : A -> A -> number).

Definition comes_after (a b : A) : bool := (0 <? cmp a b)%float.

Fixpoint insert (a : A) (l : list A) : list A :=
  match l with
  | [] => [a]
  | b :: l' => if comes_after a b then b :: insert a l' else a :: l
  end.

Definition sort (l : list A) : list A := fold_right insert [] l.
End Sort.

End JS.

Notation "x <- r ;; k" := (JS.bind r (fun x => k))
  (at level 61, r at next level, right associativity).

(* ================================================================== *)
(** * [src/hooks/useOrderbookData.ts]: the data types *)
(* ================================================================== *)

Module Data.
Import JS.

(** A price level [[price, quantity]]. *)
Definition level : Type := number * number.

Record OrderbookData := mkOrderbookData {
  bids : list level;
  asks : list level;
  timestamp : number
}.

Record PerformanceMetrics := mkPerformanceMetrics {
  dataProcessingLatency : number;
  uiUpdateLatency : number;
  endToEndLatency : number
}.

(** The [data] member of a [WebSocketMessage]; its fields [bids], [asks]
    and [timestamp] carry the prefix [raw_] here, the plain names being those
    of [OrderbookData]. *)
Record MessageData := mkMessageData {
  raw_bids : list (string * string);
  raw_asks : list (string * string);
  raw_timestamp : number
}.

Record WebSocketMessage := mkWebSocketMessage {
  type : string;
  data : MessageData
}.

(** [arr[i][0]]: indexing past the end yields [undefined], and reading
    a member of [undefined] throws. *)
Definition price_at (arr : list level) (i : nat) : result number :=
  match nth_error arr i with
  | Some lvl => Ok (fst lvl)
  | None => Throw TypeError
  end.

End Data.

(* ================================================================== *)
(** * [src/utils/tradingModels.ts] *)
(* ================================================================== *)

Module Models.
Import JS Data.
Open Scope float_scope.

Record SimulationParams := mkSimulationParams {
  quantity : number;
  volatility : number;
  feeTier : string
}.

(** The field [quantity] of the source is [res_quantity] here. *)
Record TradingMetricsResult := mkTradingMetricsResult {
  slippage : number;
  fees : number;
  marketImpact : number;
  netCost : number;
  makerProportion : number;
  takerProportion : number;
  baseAsset : string;
  quoteAsset : string;
  res_quantity : number
}.

Definition getFeeRate (feeTier : string) : number :=
  if String.eqb feeTier "tier1"%string then 0.001
  else if String.eqb feeTier "tier2"%string then 0.0008
  else if String.eqb feeTier "tier3"%string then 0.0006
  else if String.eqb feeTier "tier4"%string then 0.0004
  else if String.eqb feeTier "tier5"%string then 0.0002
  else 0.001.

Inductive side := buy | sell.

(** The [for ... of orders] loop of [calculateSlippage], from the state
    [(remainingQuantity, totalCost)] to the state on leaving the loop. *)
Fixpoint walk (orders : list level) (remainingQuantity totalCost : number)
  : number * number :=
  match orders with
  | [] => (remainingQuantity, totalCost)
  | (price, availableQty) :: rest =>
      let qtyToExecute := Math_min remainingQuantity availableQty in
      let totalCost := totalCost + qtyToExecute * price in
      let remainingQuantity := remainingQuantity - qtyToExecute in
      if remainingQuantity <=? 0 then (remainingQuantity, totalCost)
      else walk rest remainingQuantity totalCost
  end.

(** The mid price read by [calculateSlippage]. *)
Definition slippageMidPrice (orderbook : OrderbookData) (s : side)
  : result number :=
  if (Nat.ltb 0 (List.length (bids orderbook)) && Nat.ltb 0 (List.length (asks orderbook)))%bool
  then
    b <- price_at (bids orderbook) 0 ;;
    a <- price_at (asks orderbook) 0 ;;
    Ok ((b + a) / 2)
  else
    match s with
    | buy => price_at (asks orderbook) 0
    | sell => price_at (bids orderbook) 0
    end.

(** The liquidity-exhaustion branch after the loop. *)
Definition applyPenalty (orders : list level)
           (remainingQuantity totalCost : number) : result number :=
  if 0 <? remainingQuantity then
    lastPrice <- price_at orders (List.length orders - 1) ;;
    Ok (totalCost + remainingQuantity * lastPrice * 1.05)
  else Ok totalCost.

Definition calculateSlippage (orderbook : OrderbookData) (quantity : number)
           (s : side) : result number :=
  let orders := match s with buy => asks orderbook | sell => bids orderbook end in
  if Nat.eqb (List.length orders) 0 then Ok 0
  else
    midPrice <- slippageMidPrice orderbook s ;;
    let '(remainingQuantity, totalCost) := walk orders (quantity / midPrice) 0 in
    totalCost <- applyPenalty orders remainingQuantity totalCost ;;
    let avgExecutionPrice := totalCost / (quantity / midPrice) in
    let slippagePercent :=
      match s with
      | buy => (avgExecutionPrice - midPrice) / midPrice
      | sell => (midPrice - avgExecutionPrice) / midPrice
      end in
    Ok (Math_max slippagePercent 0).

(** [levels.reduce((sum, [_, qty]) => sum + qty, 0)]. *)
Definition sumQty (levels : list level) : number :=
  fold_left (fun sum lvl => sum + snd lvl) levels 0.

(** The unclamped impact of [calculateMarketImpact], both sides non-empty:
    [impactFactor * normalizedQuantity * Math.sqrt(normalizedQuantity)]. *)
Definition rawMarketImpact (bestBid bestAsk : number) (orderbook : OrderbookData)
           (quantity volatility : number) : number :=
  let midPrice := (bestBid + bestAsk) / 2 in
  let spread := bestAsk - bestBid in
  let normalizedSpread := spread / midPrice in
  let depthThreshold := midPrice * 0.01 in
  let bidDepth :=
    sumQty (filter (fun lvl => midPrice - fst lvl <=? depthThreshold) (bids orderbook)) in
  let askDepth :=
    sumQty (filter (fun lvl => fst lvl - midPrice <=? depthThreshold) (asks orderbook)) in
  let totalDepth := bidDepth + askDepth in
  let baseQuantity := quantity / midPrice in
  let normalizedQuantity := if 0 <? totalDepth then baseQuantity / totalDepth else 0 in
  let volatilityFactor := volatility / 1000 in
  let impactFactor := Math_sqrt (normalizedSpread * volatilityFactor) in
  impactFactor * normalizedQuantity * Math_sqrt normalizedQuantity.

Definition calculateMarketImpact (orderbook : OrderbookData)
           (quantity volatility : number) : result number :=
  if (Nat.eqb (List.length (bids orderbook)) 0 || Nat.eqb (List.length (asks orderbook)) 0)%bool
  then Ok 0
  else
    bestBid <- price_at (bids orderbook) 0 ;;
    bestAsk <- price_at (asks orderbook) 0 ;;
    let marketImpact := rawMarketImpact bestBid bestAsk orderbook quantity volatility in
    Ok (Math_min (Math_max marketImpact 0.0001) 0.05).

Record Proportion := mkProportion { maker : number; taker : number }.

Section WithExp.
(** [Math.exp]: the language leaves its precision to the engine. *)
Variable Math_exp : number -> number.

Definition calculateMakerTakerProportion (orderbook : OrderbookData)
           (volatility : number) : result Proportion :=
  if (Nat.eqb (List.length (bids orderbook)) 0 || Nat.eqb (List.length (asks orderbook)) 0)%bool
  then Ok (mkProportion 0.5 0.5)
  else
    bestBid <- price_at (bids orderbook) 0 ;;
    bestAsk <- price_at (asks orderbook) 0 ;;
    let midPrice := (bestBid + bestAsk) / 2 in
    let spread := bestAsk - bestBid in
    let normalizedSpread := spread / midPrice in
    let volatilityFactor := volatility / 100 in
    let spreadFactor := Math_min (normalizedSpread * 100) 1 in
    let z := 1.5 - 2 * volatilityFactor + spreadFactor in
    let makerProportion := 1 / (1 + Math_exp (- z)) in
    Ok (mkProportion makerProportion (1 - makerProportion)).

Definition calculateTradingMetrics (orderbook : OrderbookData)
           (params : SimulationParams) : result TradingMetricsResult :=
  let quantity := quantity params in
  let volatility := volatility params in
  let feeTier := feeTier params in
  buySlippage <- calculateSlippage orderbook quantity buy ;;
  sellSlippage <- calculateSlippage orderbook quantity sell ;;
  let slippage := (buySlippage + sellSlippage) / 2 in
  let feeRate := getFeeRate feeTier in
  let fees := feeRate in
  marketImpact <- calculateMarketImpact orderbook quantity volatility ;;
  let netCost := slippage + fees + marketImpact in
  mt <- calculateMakerTakerProportion orderbook volatility ;;
  Ok (mkTradingMetricsResult slippage fees marketImpact netCost
        (maker mt) (taker mt) "BTC"%string "USDT"%string quantity).
End WithExp.

End Models.


(* ================================================================== *)
(** * [src/hooks/useOrderbookData.ts]: the hook *)
(* ================================================================== *)

Module Hook.
Import JS Data.
Open Scope float_scope.

Inductive ConnectionStatus := connecting | connected | disconnected.

(** [WebSocket.readyState]. *)
Inductive ReadyState := CONNECTING | OPEN | CLOSING | CLOSED.

Definition ReadyState_eqb (a b : ReadyState) : bool :=
  match a, b with
  | CONNECTING, CONNECTING | OPEN, OPEN | CLOSING, CLOSING | CLOSED, CLOSED => true
  | _, _ => false
  end.

(** The state cells ([useState]) and refs ([useRef]) of one mounted hook.
    A state cell holds the value last handed to its setter, which React
    shows from the next render on; a ref is written at once.  [wsRef] holds
    the creation index of the socket it points to. *)
Record HookState := mkHookState {
  orderbookData : OrderbookData;
  connectionStatus : ConnectionStatus;
  error : option string;
  performanceMetrics : PerformanceMetrics;
  wsRef : option nat;
  tickStartTimeRef : number;
  processingStartTimeRef : number;
  processingEndTimeRef : number;
  renderStartTimeRef : number
}.

Definition setOrderbookData (v : OrderbookData) (h : HookState) : HookState :=
  mkHookState v (connectionStatus h) (error h) (performanceMetrics h) (wsRef h)
    (tickStartTimeRef h) (processingStartTimeRef h) (processingEndTimeRef h)
    (renderStartTimeRef h).

Definition setConnectionStatus (v : ConnectionStatus) (h : HookState) : HookState :=
  mkHookState (orderbookData h) v (error h) (performanceMetrics h) (wsRef h)
    (tickStartTimeRef h) (processingStartTimeRef h) (processingEndTimeRef h)
    (renderStartTimeRef h).

Definition setError (v : option string) (h : HookState) : HookState :=
  mkHookState (orderbookData h) (connectionStatus h) v (performanceMetrics h) (wsRef h)
    (tickStartTimeRef h) (processingStartTimeRef h) (processingEndTimeRef h)
    (renderStartTimeRef h).

Definition setPerformanceMetrics (v : PerformanceMetrics) (h : HookState) : HookState :=
  mkHookState (orderbookData h) (connectionStatus h) (error h) v (wsRef h)
    (tickStartTimeRef h) (processingStartTimeRef h) (processingEndTimeRef h)
    (renderStartTimeRef h).

Definition set_wsRef (v : option nat) (h : HookState) : HookState :=
  mkHookState (orderbookData h) (connectionStatus h) (error h) (performanceMetrics h) v
    (tickStartTimeRef h) (processingStartTimeRef h) (processingEndTimeRef h)
    (renderStartTimeRef h).

Definition set_tickStartTimeRef (v : number) (h : HookState) : HookState :=
  mkHookState (orderbookData h) (connectionStatus h) (error h) (performanceMetrics h)
    (wsRef h) v (processingStartTimeRef h) (processingEndTimeRef h)
    (renderStartTimeRef h).

Definition set_processingStartTimeRef (v : number) (h : HookState) : HookState :=
  mkHookState (orderbookData h) (connectionStatus h) (error h) (performanceMetrics h)
    (wsRef h) (tickStartTimeRef h) v (processingEndTimeRef h) (renderStartTimeRef h).

Definition set_processingEndTimeRef (v : number) (h : HookState) : HookState :=
  mkHookState (orderbookData h) (connectionStatus h) (error h) (performanceMetrics h)
    (wsRef h) (tickStartTimeRef h) (processingStartTimeRef h) v (renderStartTimeRef h).

Definition set_renderStartTimeRef (v : number) (h : HookState) : HookState :=
  mkHookState (orderbookData h) (connectionStatus h) (error h) (performanceMetrics h)
    (wsRef h) (tickStartTimeRef h) (processingStartTimeRef h) (processingEndTimeRef h) v.

(** The clock readings taken while one message is handled, in program
    order: four [performance.now()] in the handlers, and [Date.now()] for
    the timestamp default. *)
Record Readings := mkReadings {
  now_tick : number;
  now_processingStart : number;
  now_processingEnd : number;
  now_renderStart : number;
  date_now : number
}.

(** [message.data.bids.map(([price, quantity]) => [parseFloat(price), parseFloat(quantity)])]. *)
Definition parseLevels (raw : list (string * string)) : list level :=
  map (fun pq => (parseFloat (fst pq), parseFloat (snd pq))) raw.

(** The comparators handed to [sort]. *)
Definition bidOrder (a b : level) : number := fst b - fst a.
Definition askOrder (a b : level) : number := fst a - fst b.

(** The snapshot built from a message of type [snapshot] or [update]. *)
Definition normalize (d : MessageData) (dateNow : number) : OrderbookData :=
  let bids := parseLevels (raw_bids d) in
  let asks := parseLevels (raw_asks d) in
  let bids := sort bidOrder bids in
  let asks := sort askOrder asks in
  mkOrderbookData bids asks (or_else (raw_timestamp d) dateNow).

(** What [JSON.parse(event.data)] makes of a frame.

    - [NotJson]: the text is not JSON and [JSON.parse] throws.
    - [Json message]: a value on which every member access of
      [processWebSocketMessage] succeeds; [message] holds its [type] and
      the texts [parseFloat] is applied to.  A value whose [type] is neither
      [snapshot] nor [update] is of this kind whatever else it holds, its
      [data] not being read.
    - [Misshapen]: any other value, that is one on which some access
      throws [TypeError]: [null], for instance, or a value of type
      [snapshot] or [update] whose [data] is missing, whose [bids] or [asks]
      is not an array, or one of whose levels cannot be destructured.  All
      these accesses come after the start mark is written and before any
      other write. *)
Inductive Frame :=
| NotJson
| Misshapen
| Json (message : WebSocketMessage).

(** [JSON.parse]: the value has the declared shape ([Some]) or not. *)
Definition JSON_parse (f : Frame) : result (option WebSocketMessage) :=
  match f with
  | NotJson => Throw SyntaxError
  | Misshapen => Ok None
  | Json message => Ok (Some message)
  end.

Definition publishes (message : WebSocketMessage) : bool :=
  (String.eqb (type message) "snapshot" || String.eqb (type message) "update")%bool.

(** The state the call leaves, and how it ends.  The start mark is written
    before the first member access, so it is written also when the call
    throws.  The local [dataProcessingLatency] of the source is computed
    and never read; it is left out. *)
Definition processWebSocketMessage (message : option WebSocketMessage) (r : Readings)
           (h : HookState) : HookState * result unit :=
  let h := set_processingStartTimeRef (now_processingStart r) h in
  match message with
  | None => (h, Throw TypeError)
  | Some message =>
      if (String.eqb (type message) "snapshot" || String.eqb (type message) "update")%bool
      then
        let newData := normalize (data message) (date_now r) in
        let h := set_processingEndTimeRef (now_processingEnd r) h in
        let h := set_renderStartTimeRef (now_renderStart r) h in
        (setOrderbookData newData h, Ok tt)
      else (h, Ok tt)
  end.

(** The effect that depends on [orderbookData].  React runs it after the
    render that follows [setOrderbookData], not inside the message handler:
    other messages may be handled in between. *)
Definition metricsEffect (now : number) (h : HookState) : HookState :=
  if 0 <? renderStartTimeRef h then
    let uiUpdateLatency := now - renderStartTimeRef h in
    let endToEndLatency := now - tickStartTimeRef h in
    let dataProcessingLatency := processingEndTimeRef h - processingStartTimeRef h in
    let h := setPerformanceMetrics
               (mkPerformanceMetrics dataProcessingLatency uiUpdateLatency endToEndLatency) h in
    set_renderStartTimeRef 0 h
  else h.

(** [ws.onmessage]: the [try] covers both [JSON.parse] and
    [processWebSocketMessage]. *)
Definition onmessage (f : Frame) (r : Readings) (h : HookState) : HookState :=
  let h := set_tickStartTimeRef (now_tick r) h in
  match JSON_parse f with
  | Ok message =>
      match processWebSocketMessage message r h with
      | (h, Ok _) => h
      | (h, Throw _) => setError (Some "Failed to parse WebSocket message"%string) h
      end
  | Throw _ => setError (Some "Failed to parse WebSocket message"%string) h
  end.

Definition onopen (h : HookState) : HookState := setConnectionStatus connected h.

Definition onerror (h : HookState) : HookState :=
  setConnectionStatus disconnected
    (setError (Some "WebSocket connection error"%string) h).

(** The hook together with what the browser holds for it: every socket
    created so far (by creation index), the due times of the pending
    [setTimeout] callbacks, and the time of the last event, in ms. *)
Record World := mkWorld {
  hook : HookState;
  sockets : list ReadyState;
  timers : list N;
  clock : N
}.

Definition reconnectDelay : N := 5000.

Definition connectWebSocket (w : World) : World :=
  let h := setError None (setConnectionStatus connecting (hook w)) in
  let ws := List.length (sockets w) in
  mkWorld (set_wsRef (Some ws) h) (sockets w ++ [CONNECTING]) (timers w) (clock w).

(** [ws.onclose]: the status is set and the reconnect timer is armed. *)
Definition onclose (w : World) : World :=
  mkWorld (setConnectionStatus disconnected (hook w)) (sockets w)
    ((clock w + reconnectDelay)%N :: timers w) (clock w).

(** [wsRef.current?.readyState === WebSocket.CLOSED]. *)
Definition currentIsClosed (w : World) : bool :=
  match wsRef (hook w) with
  | Some ws =>
      match nth_error (sockets w) ws with
      | Some st => ReadyState_eqb st CLOSED
      | None => false
      end
  | None => false
  end.

(** The callback given to [setTimeout]. *)
Definition reconnectTimer (w : World) : World :=
  if currentIsClosed w then connectWebSocket w else w.

(** The state after the first render and the connect effect. *)
Definition mount (dateNow : number) : World :=
  connectWebSocket
    (mkWorld
       (mkHookState (mkOrderbookData [] [] dateNow) disconnected None
          (mkPerformanceMetrics 0 0 0) None 0 0 0 0)
       [] [] 0%N).

(** What happens to a mounted hook: the socket events the browser
    delivers, a timer that fires, the start of the closing handshake (the
    socket turns [CLOSING] and no handler runs), and a run of the metrics
    effect, which reads [performance.now()]. *)
Inductive Event :=
| EvOpen (ws : nat)
| EvMessage (ws : nat) (f : Frame) (r : Readings)
| EvError (ws : nat)
| EvClose (ws : nat)
| EvTimer (due : N)
| EvClosing (ws : nat)
| EvEffect (now : number).

Definition setSocket (ws : nat) (st : ReadyState) (w : World) : World :=
  mkWorld (hook w)
    (firstn ws (sockets w) ++ st :: skipn (S ws) (sockets w))
    (timers w) (clock w).

Definition setClock (t : N) (w : World) : World :=
  mkWorld (hook w) (sockets w) (timers w) t.

Definition withHook (f : HookState -> HookState) (w : World) : World :=
  mkWorld (f (hook w)) (sockets w) (timers w) (clock w).

Fixpoint removeTimer (due : N) (l : list N) : option (list N) :=
  match l with
  | [] => None
  | d :: l' =>
      if N.eqb d due then Some l'
      else match removeTimer due l' with
           | Some r => Some (d :: r)
           | None => None
           end
  end.

(** One event delivered at time [t]; [None] when it cannot happen in this
    state: time does not run backwards, [open] is for a connecting socket,
    [message] for an open one, the closing handshake starts on an open
    socket, [error] and [close] are for a socket that has not been closed
    yet (an error is reported before the close of the same socket), and a
    timer fires once and not before it is due.  The effect may run at any
    time: it acts only while the render mark is positive, that is after a
    message has been published and before the effect has seen it.  The
    system covers the hook from mount to teardown: the connect effect runs
    once, its only dependency being a callback that never changes, and its
    cleanup, the only caller of [close()], is the teardown. *)
Definition step (w : World) (t : N) (e : Event) : option World :=
  if N.ltb t (clock w) then None
  else
    let w := setClock t w in
    match e with
    | EvOpen ws =>
        match nth_error (sockets w) ws with
        | Some CONNECTING => Some (withHook onopen (setSocket ws OPEN w))
        | _ => None
        end
    | EvMessage ws f r =>
        match nth_error (sockets w) ws with
        | Some OPEN => Some (withHook (onmessage f r) w)
        | _ => None
        end
    | EvError ws =>
        match nth_error (sockets w) ws with
        | Some CLOSED | None => None
        | Some _ => Some (withHook onerror w)
        end
    | EvClose ws =>
        match nth_error (sockets w) ws with
        | Some CLOSED | None => None
        | Some _ => Some (onclose (setSocket ws CLOSED w))
        end
    | EvTimer due =>
        if N.ltb t due then None
        else match removeTimer due (timers w) with
             | Some rest =>
                 Some (reconnectTimer (mkWorld (hook w) (sockets w) rest (clock w)))
             | None => None
             end
    | EvClosing ws =>
        match nth_error (sockets w) ws with
        | Some OPEN => Some (setSocket ws CLOSING w)
        | _ => None
        end
    | EvEffect now => Some (withHook (metricsEffect now) w)
    end.

(** A run: timed events delivered in order. *)
Fixpoint run (w : World) (evs : list (N * Event)) : option World :=
  match evs with
  | [] => Some w
  | (t, e) :: rest =>
      match step w t e with
      | Some w' => run w' rest
      | None => None
      end
  end.

End Hook.

(* ================================================================== *)
(** * Notions used to state the properties *)
(* ================================================================== *)

Module Props.
Import JS Data Models Hook.
Open Scope float_scope.

(** [Math.abs(a - b) <= 1e-9], as a test would write it. *)
Definition withinTolerance (a b : number) : bool := Math_abs (a - b) <=? 1e-9.

(** Every numeric field of a result is a finite number. *)
Definition allFinite (r : TradingMetricsResult) : bool :=
  (isFinite (slippage r) && isFinite (fees r) && isFinite (marketImpact r)
   && isFinite (netCost r) && isFinite (makerProportion r)
   && isFinite (takerProportion r) && isFinite (res_quantity r))%bool.

(** [lo <= x <= hi]. *)
Definition inClosedInterval (lo hi x : number) : bool := ((lo <=? x) && (x <=? hi))%bool.

(** The penalty branch of [calculateSlippage] runs for this base quantity:
    the loop leaves a positive remainder. *)
Definition penaltyApplies (orders : list level) (baseQuantity : number) : bool :=
  0 <? fst (walk orders baseQuantity 0).

(** The value [calculateMarketImpact] clamps, when both sides are
    non-empty. *)
Definition unclampedImpact (ob : OrderbookData) (q v : number) : option number :=
  match bids ob, asks ob with
  | b :: _, a :: _ => Some (rawMarketImpact (fst b) (fst a) ob q v)
  | _, _ => None
  end.

(** The unclamped impact, if there is one, is not NaN. *)
Definition impactIsNumber (ob : OrderbookData) (q v : number) : bool :=
  match unclampedImpact ob q v with
  | Some x => negb (is_nan x)
  | None => true
  end.

(** The base quantity is more than the whole side holds. *)
Definition exceedsDepth (orders : list level) (baseQuantity : number) : bool :=
  sumQty orders <? baseQuantity.

(** The base quantity is filled by the first level alone. *)
Definition fitsTopOfBook (orders : list level) (baseQuantity : number) : bool :=
  match orders with
  | [] => false
  | lvl :: _ => baseQuantity <=? snd lvl
  end.

(** [R] holds between each element and the next. *)
Fixpoint adjacent {A : Type} (R : A -> A -> bool) (l : list A) : bool :=
  match l with
  | a :: (b :: _) as t => (R a b && adjacent R t)%bool
  | _ => true
  end.

(** Prices fall (or stay) from each level to the next. *)
Definition descending (levels : list level) : bool :=
  adjacent (fun a b => fst b <=? fst a) levels.

(** Prices rise (or stay) from each level to the next. *)
Definition ascending (levels : list level) : bool :=
  adjacent (fun a b => fst a <=? fst b) levels.

(** Prices fall strictly, so no price occurs twice. *)
Definition strictlyDescending (levels : list level) : bool :=
  adjacent (fun a b => fst b <? fst a) levels.

(** Prices rise strictly, so no price occurs twice. *)
Definition strictlyAscending (levels : list level) : bool :=
  adjacent (fun a b => fst a <? fst b) levels.

(** The levels at price [p], in list order. *)
Definition levelsAt (p : number) (levels : list level) : list level :=
  filter (fun lvl => fst lvl =? p) levels.

(** No price of the list is NaN. *)
Definition pricesAreNumbers (levels : list level) : bool :=
  forallb (fun lvl => negb (is_nan (fst lvl))) levels.

(** The book of the specification's first scenario. *)
Definition bookA : OrderbookData :=
  mkOrderbookData [(19500, 2.5); (19450, 3.2)] [(19550, 1.9); (19600, 2.8)] 0.

(** A crossed book: the best bid is above the best ask. *)
Definition crossedBook : OrderbookData :=
  mkOrderbookData [(19560, 1)] [(19550, 1)] 0.

(** A book with a thin bid side and a deep ask side. *)
Definition thinBids : OrderbookData :=
  mkOrderbookData [(19500, 0.001)] [(19550, 1000)] 0.

(** Some price or quantity string of the message parses to NaN. *)
Definition hasUnparsable (message : WebSocketMessage) : bool :=
  existsb (fun pq => (is_nan (parseFloat (fst pq)) || is_nan (parseFloat (snd pq)))%bool)
    (raw_bids (data message) ++ raw_asks (data message)).

(** The message of scenario A. *)
Definition messageA : WebSocketMessage :=
  mkWebSocketMessage "snapshot"
    (mkMessageData [("19500", "2.5"); ("19450", "3.2")]%string
                   [("19550", "1.9"); ("19600", "2.8")]%string 1700000000000).

(** A message with two levels at one price on each side. *)
Definition duplicateMessage : WebSocketMessage :=
  mkWebSocketMessage "snapshot"
    (mkMessageData [("100", "1"); ("100", "2")]%string
                   [("101", "1"); ("101", "3")]%string 1700000000000).

(** Scenario C: a tick whose bid price is not numeric. *)
Definition malformedMessage : WebSocketMessage :=
  mkWebSocketMessage "update"
    (mkMessageData [("abc", "1")]%string [("19550", "1.9")]%string 1700000000500).

Definition readings0 : Readings := mkReadings 1000 1001 1002 1003 1700000000000.
Definition readings1 : Readings := mkReadings 2000 2001 2002 2003 1700000001000.

(** The snapshot the hook publishes for [malformedMessage]. *)
Definition malformedBook : OrderbookData :=
  normalize (data malformedMessage) (date_now readings1).

(** Mount, the socket opens, the message of scenario A arrives. *)
Definition liveRun : list (N * Event) :=
  [(10%N, EvOpen 0); (1000%N, EvMessage 0 (Json messageA) readings0)].

(** An outcome of rounding with the sign [s]: finite and non-zero, or
    infinite. *)
Definition signed_nonzero (s : bool) (x : spec_float) : Prop :=
  (exists m e, x = S754_finite s m e) \/ x = S754_infinity s.

(** What every reachable state satisfies: [wsRef] points to the socket
    created last, every older socket is closed, and a timer is pending only
    while the current socket is closed, and then only one. *)
Definition Inv (w : World) : Prop :=
  exists olds cur,
    sockets w = olds ++ [cur] /\
    wsRef (hook w) = Some (List.length olds) /\
    Forall (fun st => st = CLOSED) olds /\
    (timers w = [] \/ (cur = CLOSED /\ exists due, timers w = [due])).

(** After a close at time [t0]: time does not go back, every pending timer
    is due at [t0 + 5000] or later, and the status is [connecting] only
    from then on. *)
Definition Waiting (t0 : N) (w : World) : Prop :=
  (t0 <= clock w)%N /\
  Forall (fun due => (t0 + reconnectDelay <= due)%N) (timers w) /\
  (connectionStatus (hook w) <> connecting \/ (t0 + reconnectDelay <= clock w)%N).

End Props.

(* ================================================================== *)
(** * Teardown, and further notions *)
(* ================================================================== *)

Module Lifecycle.
Import JS Data Models Hook.
Open Scope float_scope.

(** The cleanup of the connect effect.  Its [ws] is the socket the effect
    created, the first one; [close()] moves a socket that is open or
    connecting to [CLOSING], and the close event follows later. *)
Definition cleanup (w : World) : World :=
  match nth_error (sockets w) 0 with
  | Some OPEN | Some CONNECTING => setSocket 0 CLOSING w
  | _ => w
  end.

(** [wsRef.current?.readyState]. *)
Definition currentState (w : World) : option ReadyState :=
  match wsRef (hook w) with
  | Some ws => nth_error (sockets w) ws
  | None => None
  end.

(** The number of sockets that are not closed. *)
Definition liveSockets (w : World) : nat :=
  List.length (filter (fun st => negb (ReadyState_eqb st CLOSED)) (sockets w)).

(** The event is a parsed message of type [snapshot] or [update]. *)
Definition publishing (e : Event) : bool :=
  match e with
  | EvMessage _ (Json message) _ => publishes message
  | _ => false
  end.


(** The book whose side walked for [s] is [walked]. *)
Definition withSide (s : side) (walked other : list level) (ts : number)
  : OrderbookData :=
  match s with
  | buy => mkOrderbookData other walked ts
  | sell => mkOrderbookData walked other ts
  end.

(** The loop of [calculateSlippage] over [orders] ends with nothing left to
    fill. *)
Definition filledWithin (orders : list level) (baseQuantity : number) : bool :=
  fst (walk orders baseQuantity 0) <=? 0.

(** The slippage fraction before the clamp at 0, for an average execution
    price. *)
Definition slippagePercent (s : side) (avgExecutionPrice midPrice : number) : number :=
  match s with
  | buy => (avgExecutionPrice - midPrice) / midPrice
  | sell => (midPrice - avgExecutionPrice) / midPrice
  end.

(** A bid price outside the 1% band below [midPrice]. *)
Definition bidOutsideBand (midPrice : number) (lvl : level) : bool :=
  negb (midPrice - fst lvl <=? midPrice * 0.01).

(** An ask price outside the 1% band above [midPrice]. *)
Definition askOutsideBand (midPrice : number) (lvl : level) : bool :=
  negb (fst lvl - midPrice <=? midPrice * 0.01).

(** The frame is a parsed message that is published. *)
Definition published (f : Frame) : bool :=
  match f with
  | Json message => publishes message
  | NotJson | Misshapen => false
  end.

(** The handling of the frame throws: in [JSON.parse], or in
    [processWebSocketMessage]. *)
Definition rejected (f : Frame) : bool :=
  match f with
  | NotJson | Misshapen => true
  | Json _ => false
  end.

(** The start mark after the frame [f] has been handled with the readings
    [r]: [processWebSocketMessage] writes it unless [JSON.parse] threw. *)
Definition startMarkAfter (f : Frame) (r : Readings) (before : number) : number :=
  match f with
  | NotJson => before
  | Misshapen | Json _ => now_processingStart r
  end.

(** Some published level holds NaN. *)
Definition holdsNaN (ob : OrderbookData) : bool :=
  existsb (fun lvl => (is_nan (fst lvl) || is_nan (snd lvl))%bool) (bids ob ++ asks ob).

(** The spread of the best prices as a percentage of their mid price, as
    [calculateMakerTakerProportion] computes it before the cap. *)
Definition spreadPercent (bestBid bestAsk : number) : number :=
  (bestAsk - bestBid) / ((bestBid + bestAsk) / 2) * 100.

Close Scope float_scope.
Open Scope Z_scope.

(** An integer that orders the valid binary64 numbers as [SFcompare] does:
    the mantissa at exponent -1074, and beyond every finite value for the
    infinities. *)
Definition rank (x : spec_float) : Z :=
  match x with
  | S754_zero _ => 0
  | S754_finite s m e => cond_Zopp s (Zpos m * 2 ^ (e + 1074))
  | S754_infinity s => cond_Zopp s (2 ^ 53 * 2 ^ 2045)
  | S754_nan => 0
  end.

(** Zero, positive, or NaN: not below zero. *)
Definition not_negative (x : spec_float) : Prop :=
  match x with
  | S754_finite true _ _ | S754_infinity true => False
  | _ => True
  end.

Close Scope Z_scope.

(** The state of every reachable world, in full: the shape of [Inv], the
    timer pending exactly while the current socket is closed, and the
    status never ahead of the socket ([connected] outlives the start of the
    closing handshake, until the close event). *)
Definition Inv2 (w : World) : Prop :=
  exists olds cur,
    sockets w = olds ++ [cur] /\
    wsRef (hook w) = Some (List.length olds) /\
    Forall (fun st => st = CLOSED) olds /\
    ((cur <> CLOSED /\ timers w = []) \/ (cur = CLOSED /\ exists due, timers w = [due])) /\
    (connectionStatus (hook w) = connected -> cur = OPEN \/ cur = CLOSING) /\
    (connectionStatus (hook w) = connecting -> cur = CONNECTING).

End Lifecycle.

(* ================================================================== *)
(** * [src/components/SimulationPanel.tsx]: the quantity field *)
(* ================================================================== *)

Module Panel.
Import JS.

(** The global [isNaN] on a number. *)
Definition isNaN (x : number) : bool := is_nan x.

(** The quantity of the first render. *)
Definition initialQuantity : number := 100%float.

(** [handleQuantityChange]: [value] is [e.target.value], [quantity] the
    state before the event; the result is the state after it. *)
Definition handleQuantityChange (value : string) (quantity : number) : number :=
  let parsed := parseFloat value in
  if negb (isNaN parsed) then parsed else quantity.

(** The quantity after the change events [typed], oldest first. *)
Definition quantityAfter (typed : list string) : number :=
  fold_left (fun quantity value => handleQuantityChange value quantity) typed
            initialQuantity.

(** The last text of [typed] that [parseFloat] reads as a number. *)
Definition lastNumeric (typed : list string) : option string :=
  find (fun value => negb (isNaN (parseFloat value))) (rev typed).

End Panel.


(* ================================================================== *)
(** * Theorems *)
(* ================================================================== *)

(* ================================================================== *)
(** * The cost estimator never throws *)
(* ================================================================== *)

Section EstimatorTotal.
Import JS Data Models.
Open Scope float_scope.

Lemma price_at_cons (l : level) (arr : list level) :
  price_at (l :: arr) 0 = Ok (fst l).
Proof. reflexivity. Qed.

Lemma price_at_last (l : level) (arr : list level) :
  exists p, price_at (l :: arr) (List.length (l :: arr) - 1) = Ok p.
Proof.
  unfold price_at.
  destruct (nth_error (l :: arr) (List.length (l :: arr) - 1)) as [lvl|] eqn:E.
  - eauto.
  - apply nth_error_None in E. simpl in E. lia.
Qed.

Lemma slippageMidPrice_total (ob : OrderbookData) (s : side) :
  (match s with buy => asks ob | sell => bids ob end) <> [] ->
  exists m, slippageMidPrice ob s = Ok m.
Proof.
  unfold slippageMidPrice. intros H.
  destruct (bids ob) as [|b bs], (asks ob) as [|a az], s; simpl;
    try congruence; rewrite ?price_at_cons; simpl; eauto.
Qed.

Lemma applyPenalty_total (l : level) (orders : list level) (rem cost : number) :
  exists c, applyPenalty (l :: orders) rem cost = Ok c.
Proof.
  unfold applyPenalty. destruct (0 <? rem); [|eauto].
  destruct (price_at_last l orders) as [p Hp]. rewrite Hp. simpl. eauto.
Qed.

Lemma calculateSlippage_total (ob : OrderbookData) (q : number) (s : side) :
  exists x, calculateSlippage ob q s = Ok x.
Proof.
  unfold calculateSlippage. cbv zeta.
  destruct (match s with buy => asks ob | sell => bids ob end) as [|l orders] eqn:E.
  - simpl. eauto.
  - simpl Nat.eqb. cbv iota.
    destruct (slippageMidPrice_total ob s) as [m Hm].
    { rewrite E. discriminate. }
    rewrite Hm. cbn [bind].
    destruct (walk (l :: orders) (q / m) 0) as [rem cost].
    destruct (applyPenalty_total l orders rem cost) as [c Hc].
    rewrite Hc. cbn [bind]. eauto.
Qed.

Lemma calculateMarketImpact_total (ob : OrderbookData) (q v : number) :
  exists x, calculateMarketImpact ob q v = Ok x.
Proof.
  unfold calculateMarketImpact.
  destruct (bids ob) as [|b bs]; [simpl; eauto|].
  destruct (asks ob) as [|a az]; simpl; eauto.
Qed.

Lemma calculateMakerTakerProportion_total (Math_exp : number -> number)
      (ob : OrderbookData) (v : number) :
  exists x, calculateMakerTakerProportion Math_exp ob v = Ok x.
Proof.
  unfold calculateMakerTakerProportion.
  destruct (bids ob) as [|b bs]; [simpl; eauto|].
  destruct (asks ob) as [|a az]; simpl; eauto.
Qed.

(** The record built by [calculateTradingMetrics], in terms of what the four
    component functions return. *)
Lemma calculateTradingMetrics_eq (Math_exp : number -> number)
      (ob : OrderbookData) (p : SimulationParams) :
  exists b s m mt,
    calculateSlippage ob (quantity p) buy = Ok b /\
    calculateSlippage ob (quantity p) sell = Ok s /\
    calculateMarketImpact ob (quantity p) (volatility p) = Ok m /\
    calculateMakerTakerProportion Math_exp ob (volatility p) = Ok mt /\
    calculateTradingMetrics Math_exp ob p =
      Ok (mkTradingMetricsResult ((b + s) / 2) (getFeeRate (feeTier p)) m
            ((b + s) / 2 + getFeeRate (feeTier p) + m)
            (maker mt) (taker mt) "BTC"%string "USDT"%string (quantity p)).
Proof.
  destruct (calculateSlippage_total ob (quantity p) buy) as [b Hb].
  destruct (calculateSlippage_total ob (quantity p) sell) as [s Hs].
  destruct (calculateMarketImpact_total ob (quantity p) (volatility p)) as [m Hm].
  destruct (calculateMakerTakerProportion_total Math_exp ob (volatility p)) as [mt Hmt].
  exists b, s, m, mt. repeat split; try assumption.
  unfold calculateTradingMetrics. rewrite Hb, Hs, Hm, Hmt. reflexivity.
Qed.

End EstimatorTotal.

(* ================================================================== *)
(** * Fees and the empty book *)
(* ================================================================== *)

Section FeesAndEmptyBook.
Import JS Data Models Props.
Open Scope float_scope.

Lemma getFeeRate_cases (t : string) :
  getFeeRate t = 0.001 \/ getFeeRate t = 0.0008 \/ getFeeRate t = 0.0006 \/
  getFeeRate t = 0.0004 \/ getFeeRate t = 0.0002.
Proof.
  unfold getFeeRate.
  repeat match goal with |- context [String.eqb ?a ?b] => destruct (String.eqb a b) end;
    tauto.
Qed.

(** C8. The five tiers map to 0.001, 0.0008, 0.0006, 0.0004, 0.0002, each
    rate strictly below the one before; any other tier string yields 0.001;
    and with tier ["tier1"] the [fees] field of the result is 0.001 for every
    book, quantity and volatility. *)
Theorem getFeeRate_table :
  forall (Math_exp : number -> number) (t : string) (ob : OrderbookData) (q v : number),
    (getFeeRate "tier1" = 0.001 /\ getFeeRate "tier2" = 0.0008 /\
     getFeeRate "tier3" = 0.0006 /\ getFeeRate "tier4" = 0.0004 /\
     getFeeRate "tier5" = 0.0002) /\
    ((getFeeRate "tier2" <? getFeeRate "tier1") = true /\
     (getFeeRate "tier3" <? getFeeRate "tier2") = true /\
     (getFeeRate "tier4" <? getFeeRate "tier3") = true /\
     (getFeeRate "tier5" <? getFeeRate "tier4") = true) /\
    (In t ["tier1"; "tier2"; "tier3"; "tier4"; "tier5"]%string \/ getFeeRate t = 0.001) /\
    (exists r, calculateTradingMetrics Math_exp ob (mkSimulationParams q v "tier1") = Ok r
               /\ fees r = 0.001).
Proof.
  intros Math_exp t ob q v.
  split; [repeat split; reflexivity|].
  split; [repeat split; reflexivity|].
  split.
  - unfold getFeeRate.
    repeat match goal with
           | |- context [String.eqb ?a ?b] =>
               destruct (String.eqb_spec a b); [subst; left; simpl; tauto|]
           end.
    right; reflexivity.
  - destruct (calculateTradingMetrics_eq Math_exp ob (mkSimulationParams q v "tier1"))
      as (b & s & m & mt & _ & _ & _ & _ & H).
    rewrite H. eexists; split; [reflexivity|]. reflexivity.
Qed.

(** C10. With no asks a buy has slippage 0 and with no bids a sell has
    slippage 0, whatever the quantity; with both sides empty the result has
    slippage 0, market impact 0 and a net cost equal to the fee rate. *)
Theorem empty_side_slippage_is_zero :
  forall (Math_exp : number -> number) (bs az : list level) (ts q : number)
         (p : SimulationParams),
    calculateSlippage (mkOrderbookData bs [] ts) q buy = Ok 0 /\
    calculateSlippage (mkOrderbookData [] az ts) q sell = Ok 0 /\
    exists r, calculateTradingMetrics Math_exp (mkOrderbookData [] [] ts) p = Ok r
              /\ slippage r = 0 /\ marketImpact r = 0
              /\ netCost r = getFeeRate (feeTier p) /\ netCost r = fees r.
Proof.
  intros Math_exp bs az ts q p.
  split; [reflexivity|]. split; [reflexivity|].
  eexists. split; [reflexivity|]. cbn.
  split; [reflexivity|]. split; [reflexivity|].
  destruct (getFeeRate_cases (feeTier p)) as [H|[H|[H|[H|H]]]]; rewrite H;
    split; reflexivity.
Qed.

(** C6. When the bids, the asks or both are empty, no function of the
    estimator throws: the market impact is 0, the maker/taker split is
    0.5/0.5, the slippage of either side is returned, and the aggregate
    result carries these values. *)
Theorem empty_book_fallbacks :
  forall (Math_exp : number -> number) (ob : OrderbookData) (p : SimulationParams)
         (s : side),
    bids ob = [] \/ asks ob = [] ->
    calculateMarketImpact ob (quantity p) (volatility p) = Ok 0 /\
    calculateMakerTakerProportion Math_exp ob (volatility p) = Ok (mkProportion 0.5 0.5) /\
    (exists x, calculateSlippage ob (quantity p) s = Ok x) /\
    (exists r, calculateTradingMetrics Math_exp ob p = Ok r /\ marketImpact r = 0 /\
               makerProportion r = 0.5 /\ takerProportion r = 0.5 /\
               fees r = getFeeRate (feeTier p)).
Proof.
  intros Math_exp ob p s H.
  assert (Hi : calculateMarketImpact ob (quantity p) (volatility p) = Ok 0).
  { unfold calculateMarketImpact. destruct H as [H|H]; rewrite H; simpl.
    - reflexivity.
    - rewrite orb_true_r. reflexivity. }
  assert (Hm : calculateMakerTakerProportion Math_exp ob (volatility p)
               = Ok (mkProportion 0.5 0.5)).
  { unfold calculateMakerTakerProportion. destruct H as [H|H]; rewrite H; simpl.
    - reflexivity.
    - rewrite orb_true_r. reflexivity. }
  split; [exact Hi|]. split; [exact Hm|].
  split; [apply calculateSlippage_total|].
  destruct (calculateTradingMetrics_eq Math_exp ob p)
    as (b & s' & m & mt & _ & _ & Hm' & Hmt' & Hr).
  rewrite Hi in Hm'. rewrite Hm in Hmt'.
  injection Hm' as <-. injection Hmt' as <-.
  rewrite Hr. eexists. split; [reflexivity|]. cbn. repeat split; reflexivity.
Qed.

Lemma empty_book_fallbacks_witness :
  (bids (mkOrderbookData [] [(19550, 1.9)] 0) = [] \/
   asks (mkOrderbookData [] [(19550, 1.9)] 0) = []) /\
  calculateMarketImpact (mkOrderbookData [] [(19550, 1.9)] 0) 100 50 = Ok 0 /\
  calculateMakerTakerProportion (fun x => x) (mkOrderbookData [] [(19550, 1.9)] 0) 50
    = Ok (mkProportion 0.5 0.5).
Proof.
  pose proof (empty_book_fallbacks (fun x => x) (mkOrderbookData [] [(19550, 1.9)] 0)
                (mkSimulationParams 100 50 "tier1") buy (or_introl eq_refl)) as H.
  split; [left; reflexivity|].
  split; [exact (proj1 H)|exact (proj1 (proj2 H))].
Defined.

End FeesAndEmptyBook.

(* ================================================================== *)
(** * Evaluations of the estimator *)
(* ================================================================== *)

Section Evaluations.
Import JS Data Models Props.
Open Scope float_scope.

(** C7. With the book of scenario A and quantity 0 the function returns a
    record, but its [slippage] and [netCost] are NaN: [totalCost] and the
    base quantity are both 0 and line 76 divides one by the other. *)
Theorem zero_quantity_gives_nan :
  forall Math_exp : number -> number,
    exists r,
      calculateTradingMetrics Math_exp bookA (mkSimulationParams 0 50 "tier1") = Ok r /\
      walk (asks bookA) (0 / 19525) 0 = (0, 0) /\
      walk (bids bookA) (0 / 19525) 0 = (0, 0) /\
      is_nan (0 / (0 / 19525)) = true /\
      calculateSlippage bookA 0 buy = Ok nan /\
      calculateSlippage bookA 0 sell = Ok nan /\
      is_nan (slippage r) = true /\ is_nan (netCost r) = true /\
      allFinite r = false.
Proof.
  intro Math_exp. eexists. split; [reflexivity|].
  do 7 (split; [vm_compute; reflexivity|]).
  unfold allFinite. replace (isFinite _) with false at 1 by (vm_compute; reflexivity).
  reflexivity.
Qed.

(** C3. On the sell side the penalty raises the sale price.  In scenario A
    a sale of 150000 USD is more than the bids hold and takes the penalty
    branch, and its slippage is 0, below that of a 100 USD sale that the
    best bid fills.  With a thin bid side the reported (round-trip) slippage
    of the order that exhausts the bids is below that of one that fits the
    top of the book. *)
Theorem sell_penalty_lowers_slippage :
  forall Math_exp : number -> number,
  exists sBig sSmall rBig rSmall,
    exceedsDepth (bids bookA) (150000 / 19525) = true /\
    penaltyApplies (bids bookA) (150000 / 19525) = true /\
    fitsTopOfBook (bids bookA) (100 / 19525) = true /\
    penaltyApplies (bids bookA) (100 / 19525) = false /\
    calculateSlippage bookA 150000 sell = Ok sBig /\
    calculateSlippage bookA 100 sell = Ok sSmall /\
    sBig = 0 /\ (sBig <? sSmall) = true /\
    exceedsDepth (bids thinBids) (100 / 19525) = true /\
    penaltyApplies (bids thinBids) (100 / 19525) = true /\
    fitsTopOfBook (bids thinBids) (1 / 19525) = true /\
    fitsTopOfBook (asks thinBids) (1 / 19525) = true /\
    calculateTradingMetrics Math_exp thinBids (mkSimulationParams 100 50 "tier1")
      = Ok rBig /\
    calculateTradingMetrics Math_exp thinBids (mkSimulationParams 1 50 "tier1")
      = Ok rSmall /\
    (slippage rBig <? slippage rSmall) = true.
Proof.
  intro Math_exp. do 4 eexists.
  repeat match goal with |- _ /\ _ => split end;
    try (vm_compute; reflexivity).
Qed.

End Evaluations.

(* ================================================================== *)
(** * Facts about binary64 comparison *)
(* ================================================================== *)

Section FloatOrder.
Import JS.
Open Scope float_scope.

Lemma SFcompare_antisym (x y : spec_float) :
  SFcompare y x = option_map CompOpp (SFcompare x y).
Proof.
  destruct x as [sx|sx| |sx mx ex], y as [sy|sy| |sy my ey]; simpl;
    try destruct sx; try destruct sy; try reflexivity;
    rewrite (Z.compare_antisym ex ey); destruct (ex ?= ey)%Z; simpl; try reflexivity;
    change (Pos.compare_cont Eq my mx) with (Pos.compare_cont (CompOpp Eq) my mx);
    rewrite <- Pos.compare_cont_antisym;
    destruct (Pos.compare_cont Eq mx my); reflexivity.
Qed.

Lemma SFcompare_refl (x : spec_float) :
  x <> S754_nan -> SFcompare x x = Some Eq.
Proof.
  destruct x as [s|s| |s m e]; simpl; intro H; try congruence.
  - destruct s; reflexivity.
  - rewrite Z.compare_refl, Pos.compare_cont_refl. destruct s; reflexivity.
Qed.

Lemma SFcompare_nan_iff (x y : spec_float) :
  SFcompare x y = None <-> x = S754_nan \/ y = S754_nan.
Proof.
  destruct x as [sx|sx| |sx mx ex], y as [sy|sy| |sy my ey]; simpl;
    split; intro H; try discriminate; try tauto;
    destruct H as [H|H]; discriminate.
Qed.

Lemma is_nan_spec (x : float) :
  is_nan x = match Prim2SF x with S754_nan => true | _ => false end.
Proof.
  unfold is_nan. rewrite eqb_spec. unfold SFeqb.
  destruct (Prim2SF x) as [s|s| |s m e] eqn:E.
  - reflexivity.
  - rewrite SFcompare_refl by discriminate. reflexivity.
  - reflexivity.
  - rewrite SFcompare_refl by discriminate. reflexivity.
Qed.

Lemma is_nan_false (x : float) : is_nan x = false <-> Prim2SF x <> S754_nan.
Proof.
  rewrite is_nan_spec. destruct (Prim2SF x); split; intro H; congruence.
Qed.

Lemma ltb_leb (x y : float) : (x <? y) = true -> (x <=? y) = true.
Proof.
  rewrite ltb_spec, leb_spec. unfold SFltb, SFleb.
  destruct (SFcompare (Prim2SF x) (Prim2SF y)) as [[]|]; congruence.
Qed.

Lemma eqb_leb (x y : float) : (x =? y) = true -> (x <=? y) = true.
Proof.
  rewrite eqb_spec, leb_spec. unfold SFeqb, SFleb.
  destruct (SFcompare (Prim2SF x) (Prim2SF y)) as [[]|]; congruence.
Qed.

Lemma leb_refl (x : float) : is_nan x = false -> (x <=? x) = true.
Proof.
  intro H. apply is_nan_false in H. rewrite leb_spec. unfold SFleb.
  rewrite SFcompare_refl by assumption. reflexivity.
Qed.

(** On numbers the order is total. *)
Lemma not_ltb_leb (x y : float) :
  is_nan x = false -> is_nan y = false -> (x <? y) = false -> (y <=? x) = true.
Proof.
  intros Hx Hy. apply is_nan_false in Hx, Hy.
  rewrite ltb_spec, leb_spec. unfold SFltb, SFleb.
  rewrite (SFcompare_antisym (Prim2SF x) (Prim2SF y)).
  destruct (SFcompare (Prim2SF x) (Prim2SF y)) as [[]|] eqn:E; simpl; try congruence.
  apply SFcompare_nan_iff in E. tauto.
Qed.

Lemma ltb_not_nan (x y : float) :
  (x <? y) = true -> is_nan x = false /\ is_nan y = false.
Proof.
  rewrite ltb_spec. unfold SFltb. rewrite !is_nan_spec.
  destruct (Prim2SF x), (Prim2SF y); simpl; intro; split; congruence.
Qed.

Lemma leb_not_nan (x y : float) :
  (x <=? y) = true -> is_nan x = false /\ is_nan y = false.
Proof.
  rewrite leb_spec. unfold SFleb. rewrite !is_nan_spec.
  destruct (Prim2SF x), (Prim2SF y); simpl; intro; split; congruence.
Qed.

(** ** [Math.max] and [Math.min] *)

Lemma Math_max_nan (a b : number) :
  is_nan (Math_max a b) = (is_nan a || is_nan b)%bool.
Proof.
  unfold Math_max.
  destruct (is_nan a) eqn:Ha; [reflexivity|].
  destruct (is_nan b) eqn:Hb; [reflexivity|]. simpl.
  destruct (b <? a); [assumption|].
  destruct (b =? a); [destruct (get_sign a); assumption|assumption].
Qed.

Lemma Math_min_nan (a b : number) :
  is_nan (Math_min a b) = (is_nan a || is_nan b)%bool.
Proof.
  unfold Math_min.
  destruct (is_nan a) eqn:Ha; [reflexivity|].
  destruct (is_nan b) eqn:Hb; [reflexivity|]. simpl.
  destruct (a <? b); [assumption|].
  destruct (a =? b); [destruct (get_sign a); assumption|assumption].
Qed.

Lemma Math_max_lower (a lo : number) :
  is_nan a = false -> is_nan lo = false -> (lo <=? Math_max a lo) = true.
Proof.
  intros Ha Hlo. unfold Math_max. rewrite Ha, Hlo. simpl.
  destruct (lo <? a) eqn:E1; [apply ltb_leb; assumption|].
  destruct (lo =? a) eqn:E2.
  - destruct (get_sign a); [apply leb_refl; assumption|apply eqb_leb; assumption].
  - apply leb_refl; assumption.
Qed.

Lemma Math_min_upper (a hi : number) :
  is_nan a = false -> is_nan hi = false -> (Math_min a hi <=? hi) = true.
Proof.
  intros Ha Hhi. unfold Math_min. rewrite Ha, Hhi. simpl.
  destruct (a <? hi) eqn:E1; [apply ltb_leb; assumption|].
  destruct (a =? hi) eqn:E2.
  - destruct (get_sign a); [apply eqb_leb; assumption|apply leb_refl; assumption].
  - apply leb_refl; assumption.
Qed.

Lemma Math_min_lower (lo a hi : number) :
  (lo <=? a) = true -> (lo <=? hi) = true -> (lo <=? Math_min a hi) = true.
Proof.
  intros Ha Hhi. unfold Math_min.
  destruct (leb_not_nan _ _ Ha) as [_ Ha'].
  destruct (leb_not_nan _ _ Hhi) as [_ Hhi'].
  rewrite Ha', Hhi'. simpl.
  destruct (a <? hi); [assumption|].
  destruct (a =? hi); [destruct (get_sign a); assumption|assumption].
Qed.

(** The clamp [Math.min(Math.max(x, lo), hi)] of a number lies in
    [[lo, hi]]. *)
Lemma clamp_bounds (x lo hi : number) :
  is_nan x = false -> (lo <=? hi) = true ->
  (lo <=? Math_min (Math_max x lo) hi) = true /\
  (Math_min (Math_max x lo) hi <=? hi) = true.
Proof.
  intros Hx Hlh. destruct (leb_not_nan _ _ Hlh) as [Hlo Hhi]. split.
  - apply Math_min_lower; [apply Math_max_lower; assumption|assumption].
  - apply Math_min_upper; [|assumption].
    rewrite Math_max_nan, Hx, Hlo. reflexivity.
Qed.

Lemma clamp_nan (x lo hi : number) :
  is_nan x = true -> is_nan (Math_min (Math_max x lo) hi) = true.
Proof.
  intro Hx. rewrite Math_min_nan, Math_max_nan, Hx. reflexivity.
Qed.

(** From [lo <= x] with [lo] positive, [0 <= x]. *)
Lemma leb_trans_zero (lo x : float) :
  (0 <? lo) = true -> (lo <=? x) = true -> (0 <=? x) = true.
Proof.
  rewrite ltb_spec, !leb_spec. unfold SFltb, SFleb.
  change (Prim2SF 0) with (S754_zero false).
  destruct (Prim2SF lo) as [sl|sl| |sl ml el], (Prim2SF x) as [sx|sx| |sx mx ex]; simpl;
    try destruct sl; try destruct sx; simpl; congruence.
Qed.

Lemma is_finite_spec (x : float) :
  is_finite x = match Prim2SF x with
                | S754_zero _ | S754_finite _ _ _ => true
                | _ => false
                end.
Proof.
  unfold is_finite, is_infinity. rewrite is_nan_spec, eqb_spec, abs_spec.
  change (Prim2SF infinity) with (S754_infinity false).
  destruct (Prim2SF x) as [s|s| |s m e]; reflexivity.
Qed.

(** A finite number minus itself is [+0]; NaN and the infinities minus
    themselves are NaN. *)
Lemma SFsub_diag (x : spec_float) :
  SF64sub x x = match x with
                | S754_zero _ | S754_finite _ _ _ => S754_zero false
                | _ => S754_nan
                end.
Proof.
  destruct x as [s|s| |s m e]; try (destruct s; reflexivity); [reflexivity|].
  unfold SF64sub, SFsub. rewrite Z.sub_diag. reflexivity.
Qed.

(** The test [Math.abs(x - x) <= 1e-9] passes exactly for finite [x]. *)
Lemma tolerance_diag (x : float) : (abs (x - x) <=? 1e-9) = is_finite x.
Proof.
  rewrite is_finite_spec, leb_spec, abs_spec, sub_spec, SFsub_diag.
  destruct (Prim2SF x) as [s|s| |s m e]; reflexivity.
Qed.

End FloatOrder.

(* ================================================================== *)
(** * Market impact and net cost *)
(* ================================================================== *)

Section ImpactAndNetCost.
Import JS Data Models Props.
Open Scope float_scope.

Lemma calculateMarketImpact_nonempty (b : level) (bs : list level) (a : level)
      (az : list level) (ts q v : number) :
  calculateMarketImpact (mkOrderbookData (b :: bs) (a :: az) ts) q v =
  Ok (Math_min
        (Math_max
           (rawMarketImpact (fst b) (fst a) (mkOrderbookData (b :: bs) (a :: az) ts) q v)
           0.0001) 0.05).
Proof. reflexivity. Qed.

(** The clamp lets NaN through. *)
Lemma market_impact_nan (b : level) (bs : list level) (a : level)
      (az : list level) (ts q v : number) :
  is_nan (rawMarketImpact (fst b) (fst a) (mkOrderbookData (b :: bs) (a :: az) ts) q v) = true ->
  exists r, calculateMarketImpact (mkOrderbookData (b :: bs) (a :: az) ts) q v = Ok r
            /\ is_nan r = true.
Proof.
  intro H. rewrite calculateMarketImpact_nonempty. eexists. split; [reflexivity|].
  apply clamp_nan. exact H.
Qed.

(** C4, as stated, fails: with the snapshot published for a tick whose bid
    price is not numeric, with a negative quantity, or with a crossed book,
    both sides are non-empty and the result is NaN, outside [0.0001, 0.05]. *)
Lemma market_impact_out_of_range :
  (exists r, calculateMarketImpact malformedBook 100 50 = Ok r /\
             is_nan r = true /\ inClosedInterval 0.0001 0.05 r = false /\
             (0 <=? r) = false) /\
  (exists r, calculateMarketImpact bookA (-100) 50 = Ok r /\
             is_nan r = true /\ inClosedInterval 0.0001 0.05 r = false /\
             (0 <=? r) = false) /\
  (exists r, calculateMarketImpact crossedBook 100 50 = Ok r /\
             is_nan r = true /\ inClosedInterval 0.0001 0.05 r = false /\
             (0 <=? r) = false).
Proof.
  repeat split; eexists; (split; [vm_compute; reflexivity|]);
    repeat split; vm_compute; reflexivity.
Qed.

(** C4, amended. Whenever the unclamped impact is a number, the function
    returns a result that is at least 0; with both sides non-empty it lies
    in [0.0001, 0.05], and with an empty side it is 0. *)
Theorem market_impact_clamped :
  forall (ob : OrderbookData) (q v : number),
    impactIsNumber ob q v = true ->
    exists r, calculateMarketImpact ob q v = Ok r /\ (0 <=? r) = true /\
              match bids ob, asks ob with
              | _ :: _, _ :: _ => inClosedInterval 0.0001 0.05 r = true
              | _, _ => r = 0
              end.
Proof.
  intros [bs az ts] q v. unfold impactIsNumber, unclampedImpact.
  destruct bs as [|b bs]; [intros _; exists 0; repeat split; reflexivity|].
  destruct az as [|a az]; [intros _; exists 0; repeat split; reflexivity|].
  cbn [bids asks]. intro H. apply negb_true_iff in H.
  rewrite calculateMarketImpact_nonempty. eexists. split; [reflexivity|].
  destruct (clamp_bounds _ 0.0001 0.05 H eq_refl) as [Hlo Hhi].
  split.
  - apply (leb_trans_zero 0.0001); [reflexivity|exact Hlo].
  - unfold inClosedInterval. rewrite Hlo, Hhi. reflexivity.
Qed.

Lemma market_impact_clamped_witness :
  impactIsNumber bookA 100 50 = true /\
  exists r, calculateMarketImpact bookA 100 50 = Ok r /\ (0 <=? r) = true /\
            inClosedInterval 0.0001 0.05 r = true.
Proof.
  split; [vm_compute; reflexivity|].
  exact (market_impact_clamped bookA 100 50 eq_refl).
Defined.

(** C1, as stated, fails, whatever [Math.exp] is: the net cost is NaN at
    quantity 0 and on the snapshot published for a tick whose bid price is
    not numeric, it is infinite for a quantity near the largest double, and
    in each case the tolerance test is false. *)
Lemma netCost_tolerance_fails :
  (forall Math_exp : number -> number,
    exists r,
      calculateTradingMetrics Math_exp bookA (mkSimulationParams 0 50 "tier1") = Ok r /\
      is_nan (netCost r) = true /\
      withinTolerance (netCost r) (slippage r + fees r + marketImpact r) = false) /\
  (forall Math_exp : number -> number,
    exists r,
      calculateTradingMetrics Math_exp malformedBook (mkSimulationParams 100 50 "tier1")
        = Ok r /\
      is_nan (netCost r) = true /\
      withinTolerance (netCost r) (slippage r + fees r + marketImpact r) = false) /\
  (forall Math_exp : number -> number,
    exists r,
      calculateTradingMetrics Math_exp bookA (mkSimulationParams 1.79e308 50 "tier1")
        = Ok r /\
      netCost r = infinity /\
      withinTolerance (netCost r) (slippage r + fees r + marketImpact r) = false).
Proof.
  repeat split; intro Math_exp; eexists;
    (split; [vm_compute; reflexivity|]); split; vm_compute; reflexivity.
Qed.

(** C1, amended. The function always returns a result; its [netCost] is bit
    for bit the program's sum [slippage + fees + marketImpact]; and the two
    are within 1e-9 of each other exactly when [netCost] is finite. *)
Theorem netCost_is_sum :
  forall (Math_exp : number -> number) (ob : OrderbookData) (p : SimulationParams),
    exists r,
      calculateTradingMetrics Math_exp ob p = Ok r /\
      netCost r = slippage r + fees r + marketImpact r /\
      withinTolerance (netCost r) (slippage r + fees r + marketImpact r)
        = isFinite (netCost r).
Proof.
  intros Math_exp ob p.
  destruct (calculateTradingMetrics_eq Math_exp ob p)
    as (b & s & m & mt & _ & _ & _ & _ & H).
  eexists. split; [exact H|]. cbn [netCost slippage fees marketImpact].
  split; [reflexivity|]. unfold withinTolerance, Math_abs, isFinite.
  apply tolerance_diag.
Qed.

End ImpactAndNetCost.

(* ================================================================== *)
(** * The sign of a binary64 difference *)
(* ================================================================== *)

Section FloatSub.
Import Props.
Open Scope Z_scope.

Lemma digits2_pos_bounds (p : positive) :
  2 ^ (Zpos (digits2_pos p) - 1) <= Zpos p < 2 ^ Zpos (digits2_pos p).
Proof.
  induction p as [p IH|p IH|]; simpl digits2_pos.
  - rewrite Pos2Z.inj_succ, Z.pow_succ_r by lia.
    replace (Z.succ (Zpos (digits2_pos p)) - 1) with (Z.succ (Zpos (digits2_pos p) - 1)) by lia.
    rewrite Z.pow_succ_r by lia. lia.
  - rewrite Pos2Z.inj_succ, Z.pow_succ_r by lia.
    replace (Z.succ (Zpos (digits2_pos p)) - 1) with (Z.succ (Zpos (digits2_pos p) - 1)) by lia.
    rewrite Z.pow_succ_r by lia. lia.
  - simpl. lia.
Qed.

Lemma iter_xO_value (m d : positive) :
  Zpos (Pos.iter xO m d) = Zpos m * 2 ^ Zpos d.
Proof.
  induction d as [|d IH] using Pos.peano_ind.
  - simpl. lia.
  - rewrite Pos.iter_succ, Pos2Z.inj_succ, Z.pow_succ_r by lia.
    rewrite Pos2Z.inj_xO, IH. lia.
Qed.

Lemma shl_align_value (m : positive) (e e' : Z) :
  e' <= e -> Zpos (fst (shl_align m e e')) = Zpos m * 2 ^ (e - e').
Proof.
  intro H. unfold shl_align.
  destruct (e' - e) as [|d|d] eqn:E; try lia.
  - replace (e - e') with 0 by lia. simpl. lia.
  - simpl fst. rewrite iter_xO_value. replace (e - e') with (Zpos d) by lia. reflexivity.
Qed.

Lemma shl_align_exponent (m : positive) (e e' : Z) :
  - 1074 <= e -> - 1074 <= e' -> - 1074 <= snd (shl_align m e e').
Proof.
  intros. unfold shl_align. destruct (e' - e); simpl; assumption.
Qed.

(** ** Rounding a non-zero integer keeps its sign *)

Lemma shr_1_pos (mrs : shr_record) (m : positive) :
  shr_m mrs = Zpos m -> 1 < Zpos (digits2_pos m) ->
  exists m', shr_m (shr_1 mrs) = Zpos m' /\
             Zpos (digits2_pos m') = Zpos (digits2_pos m) - 1.
Proof.
  destruct mrs as [mm r s]. cbn [shr_m]. intros -> H.
  destruct m as [p|p|]; cbn [shr_1 shr_m digits2_pos] in *.
  - exists p. split; [reflexivity|lia].
  - exists p. split; [reflexivity|lia].
  - lia.
Qed.

Lemma iter_shr_1_pos (k : positive) :
  forall (mrs : shr_record) (m : positive),
    shr_m mrs = Zpos m -> Zpos k < Zpos (digits2_pos m) ->
    exists m', shr_m (iter_pos shr_1 k mrs) = Zpos m' /\
               Zpos (digits2_pos m') = Zpos (digits2_pos m) - Zpos k.
Proof.
  induction k as [k IH|k IH|]; intros mrs m Hm Hk; simpl iter_pos.
  - destruct (shr_1_pos mrs m Hm) as (m1 & H1 & D1); [lia|].
    destruct (IH _ _ H1) as (m2 & H2 & D2); [lia|].
    destruct (IH _ _ H2) as (m3 & H3 & D3); [lia|].
    exists m3. split; [exact H3|lia].
  - destruct (IH _ _ Hm) as (m2 & H2 & D2); [lia|].
    destruct (IH _ _ H2) as (m3 & H3 & D3); [lia|].
    exists m3. split; [exact H3|lia].
  - destruct (shr_1_pos mrs m Hm) as (m1 & H1 & D1); [lia|].
    exists m1. split; [exact H1|lia].
Qed.

Lemma shr_record_of_loc_m (m : Z) (l : location) : shr_m (shr_record_of_loc m l) = m.
Proof. destruct l as [|[]]; reflexivity. Qed.

Lemma shr_fexp_pos (m : positive) (e : Z) (l : location) :
  - 1074 <= e ->
  exists mrs e' m', shr_fexp prec emax (Zpos m) e l = (mrs, e') /\
                    shr_m mrs = Zpos m' /\ - 1074 <= e'.
Proof.
  intro He. unfold shr_fexp, shr. simpl Zdigits2.
  destruct (fexp prec emax (Zpos (digits2_pos m) + e) - e) as [|k|k] eqn:E.
  - do 3 eexists. split; [reflexivity|]. split; [apply shr_record_of_loc_m|exact He].
  - destruct (iter_shr_1_pos k (shr_record_of_loc (Zpos m) l) m) as (m' & H' & _).
    + apply shr_record_of_loc_m.
    + revert E. unfold fexp, SpecFloat.emin, prec, emax. lia.
    + do 3 eexists. split; [reflexivity|]. split; [exact H'|lia].
  - do 3 eexists. split; [reflexivity|]. split; [apply shr_record_of_loc_m|exact He].
Qed.

Lemma round_nearest_even_pos (m : positive) (l : location) :
  exists m', round_nearest_even (Zpos m) l = Zpos m'.
Proof.
  unfold round_nearest_even.
  destruct l as [|[]]; try (exists m; reflexivity).
  - destruct (Z.even (Zpos m)); [exists m|exists (m + 1)%positive]; reflexivity.
  - exists (m + 1)%positive; reflexivity.
Qed.

Lemma binary_round_aux_sign (s : bool) (m : positive) (e : Z) (l : location) :
  - 1074 <= e -> signed_nonzero s (binary_round_aux prec emax s (Zpos m) e l).
Proof.
  intro He. unfold binary_round_aux.
  destruct (shr_fexp_pos m e l He) as (mrs1 & e1 & m1 & -> & Hm1 & He1).
  rewrite Hm1.
  destruct (round_nearest_even_pos m1 (loc_of_shr_record mrs1)) as (m2 & ->).
  destruct (shr_fexp_pos m2 e1 loc_Exact He1) as (mrs3 & e3 & m3 & -> & Hm3 & He3).
  rewrite Hm3. destruct (e3 <=? emax - prec).
  - left. eauto.
  - right. reflexivity.
Qed.

Lemma binary_round_sign (s : bool) (m : positive) (e : Z) :
  - 1074 <= e -> signed_nonzero s (binary_round prec emax s m e).
Proof.
  intro He. unfold binary_round.
  pose proof (shl_align_exponent m e (fexp prec emax (Zpos (digits2_pos m) + e)) He) as H.
  destruct (shl_align m e (fexp prec emax (Zpos (digits2_pos m) + e))) as [mz ez].
  apply binary_round_aux_sign. apply H.
  unfold fexp, SpecFloat.emin, prec, emax. lia.
Qed.

(** Comparing the result of [binary_normalize] with zero is comparing the
    integer with 0. *)
Lemma binary_normalize_sign (d e : Z) :
  - 1074 <= e ->
  SFcompare (S754_zero false) (binary_normalize prec emax d e false) = Some (0 ?= d).
Proof.
  intro He. destruct d as [|p|p]; simpl.
  - reflexivity.
  - destruct (binary_round_sign false p e He) as [(m' & e' & ->)| ->]; reflexivity.
  - destruct (binary_round_sign true p e He) as [(m' & e' & ->)| ->]; reflexivity.
Qed.

(** ** The order of valid finite numbers is the order of their aligned
    mantissas *)

Lemma bounded_digits (m : positive) (e : Z) :
  bounded prec emax m e = true ->
  - 1074 <= e /\ Zpos (digits2_pos m) <= 53 /\ (- 1074 < e -> Zpos (digits2_pos m) = 53).
Proof.
  unfold bounded, canonical_mantissa, fexp, SpecFloat.emin, prec, emax.
  intro H. apply andb_true_iff in H. destruct H as [H _].
  apply Z.eqb_eq in H. lia.
Qed.

Lemma aligned_lt (m1 : positive) (e1 : Z) (m2 : positive) (e2 : Z) :
  bounded prec emax m1 e1 = true -> bounded prec emax m2 e2 = true ->
  e1 < e2 -> Zpos m1 < Zpos m2 * 2 ^ (e2 - e1).
Proof.
  intros B1 B2 H.
  destruct (bounded_digits _ _ B1) as (L1 & D1 & _).
  destruct (bounded_digits _ _ B2) as (L2 & _ & D2).
  specialize (D2 ltac:(lia)).
  pose proof (digits2_pos_bounds m1) as [_ U1].
  pose proof (digits2_pos_bounds m2) as [U2 _].
  rewrite D2 in U2.
  assert (P1 : 2 ^ Zpos (digits2_pos m1) <= 2 ^ 53) by (apply Z.pow_le_mono_r; lia).
  assert (P2 : 2 ^ 1 <= 2 ^ (e2 - e1)) by (apply Z.pow_le_mono_r; lia).
  change (2 ^ 1) with 2 in P2. change (2 ^ 53) with (2 ^ (53 - 1) * 2) in P1.
  assert (2 ^ (53 - 1) * 2 <= Zpos m2 * 2 ^ (e2 - e1)).
  { apply Z.mul_le_mono_nonneg; lia. }
  lia.
Qed.

Lemma aligned_compare (m1 : positive) (e1 : Z) (m2 : positive) (e2 : Z) :
  bounded prec emax m1 e1 = true -> bounded prec emax m2 e2 = true ->
  match e1 ?= e2 with
  | Lt => Lt
  | Gt => Gt
  | Eq => Pos.compare_cont Eq m1 m2
  end
  = (Zpos (fst (shl_align m1 e1 (Z.min e1 e2))) ?= Zpos (fst (shl_align m2 e2 (Z.min e1 e2)))).
Proof.
  intros B1 B2.
  rewrite !shl_align_value by lia.
  destruct (Z.compare_spec e1 e2) as [E|E|E].
  - subst. rewrite Z.min_id, Z.sub_diag. simpl (2 ^ 0). rewrite !Z.mul_1_r. reflexivity.
  - rewrite Z.min_l by lia. rewrite Z.sub_diag. simpl (2 ^ 0). rewrite Z.mul_1_r.
    symmetry. apply Z.compare_lt_iff. apply aligned_lt; assumption.
  - rewrite Z.min_r by lia. rewrite Z.sub_diag. simpl (2 ^ 0). rewrite Z.mul_1_r.
    symmetry. apply Z.compare_gt_iff. apply aligned_lt; assumption.
Qed.

Lemma SFcompare_finite_aligned (s1 : bool) (m1 : positive) (e1 : Z)
      (s2 : bool) (m2 : positive) (e2 : Z) :
  bounded prec emax m1 e1 = true -> bounded prec emax m2 e2 = true ->
  SFcompare (S754_finite s1 m1 e1) (S754_finite s2 m2 e2) =
  Some (cond_Zopp s1 (Zpos (fst (shl_align m1 e1 (Z.min e1 e2)))) ?=
        cond_Zopp s2 (Zpos (fst (shl_align m2 e2 (Z.min e1 e2))))).
Proof.
  intros B1 B2. pose proof (aligned_compare m1 e1 m2 e2 B1 B2) as A.
  unfold SFcompare. destruct s1, s2; unfold cond_Zopp.
  - f_equal. rewrite Z.compare_opp.
    rewrite (Z.compare_antisym (Zpos (fst (shl_align m1 e1 (Z.min e1 e2))))), <- A.
    destruct (e1 ?= e2); reflexivity.
  - reflexivity.
  - reflexivity.
  - f_equal. rewrite <- A. destruct (e1 ?= e2); reflexivity.
Qed.

(** [y - x] is positive exactly when [x < y], on all of binary64. *)
Lemma SFsub_sign (x y : spec_float) :
  valid_binary x = true -> valid_binary y = true ->
  SFltb (S754_zero false) (SF64sub y x) = SFltb x y.
Proof.
  intros Vx Vy. unfold SFltb.
  destruct x as [sx|sx| |sx mx ex], y as [sy|sy| |sy my ey];
    try (destruct sx; reflexivity);
    try (destruct sy; reflexivity);
    try (destruct sx, sy; reflexivity);
    try reflexivity.
  simpl in Vx, Vy.
  rewrite (SFcompare_finite_aligned sx mx ex sy my ey Vx Vy).
  unfold SF64sub, SFsub.
  destruct (bounded_digits _ _ Vx) as (Lx & _).
  destruct (bounded_digits _ _ Vy) as (Ly & _).
  rewrite binary_normalize_sign by lia.
  rewrite (Z.min_comm ey ex).
  set (X := cond_Zopp sx _). set (Y := cond_Zopp sy _).
  destruct (Z.compare_spec X Y) as [E|E|E];
    destruct (Z.compare_spec 0 (Y - X)) as [F|F|F]; try reflexivity; lia.
Qed.

End FloatSub.

Section FloatSubPrim.
Open Scope float_scope.

(** The comparator idiom [(a, b) => b - a]: its result is positive exactly
    when [a < b]. *)
Lemma sub_sign (x y : float) : (0 <? y - x) = (x <? y).
Proof.
  rewrite !ltb_spec, sub_spec.
  change (Prim2SF 0) with (S754_zero false).
  apply SFsub_sign; apply Prim2SF_valid.
Qed.

End FloatSubPrim.

(* ================================================================== *)
(** * The stable sort *)
(* ================================================================== *)

Section SortFacts.
Import JS.
Context {A : Type} (cmp : A -> A -> number).

Lemma insert_perm (a : A) (l : list A) : Permutation (insert cmp a l) (a :: l).
Proof.
  induction l as [|b l IH]; simpl; [reflexivity|].
  destruct (comes_after cmp a b); [|reflexivity].
  rewrite IH. apply perm_swap.
Qed.

Lemma sort_perm (l : list A) : Permutation (sort cmp l) l.
Proof.
  induction l as [|a l IH]; simpl; [reflexivity|].
  rewrite insert_perm. constructor. exact IH.
Qed.

Variables (P : A -> Prop) (R : A -> A -> Prop).
Hypothesis keep : forall a b, P a -> P b -> comes_after cmp a b = false -> R a b.
Hypothesis swap : forall a b, P a -> P b -> comes_after cmp a b = true -> R b a.

Lemma insert_HdRel (a b : A) (l : list A) :
  R b a -> HdRel R b l -> HdRel R b (insert cmp a l).
Proof.
  intros Hba Hl. destruct l as [|c l]; simpl; [constructor; exact Hba|].
  destruct (comes_after cmp a c); constructor; [|exact Hba].
  inversion Hl; assumption.
Qed.

Lemma insert_sorted (a : A) (l : list A) :
  P a -> Forall P l -> Sorted R l -> Sorted R (insert cmp a l).
Proof.
  intros Pa. induction l as [|b l IH]; intros Pl Sl; simpl.
  - repeat constructor.
  - inversion Pl as [|? ? Pb Pl']; subst. inversion Sl as [|? ? Sl' Hb]; subst.
    destruct (comes_after cmp a b) eqn:E.
    + constructor; [apply IH; assumption|].
      apply insert_HdRel; [apply swap; assumption|exact Hb].
    + constructor; [exact Sl|]. constructor. apply keep; assumption.
Qed.

Lemma sort_sorted (l : list A) : Forall P l -> Sorted R (sort cmp l).
Proof.
  induction l as [|a l IH]; intro Pl; simpl; [constructor|].
  inversion Pl as [|? ? Pa Pl']; subst.
  apply insert_sorted; [exact Pa| |apply IH; exact Pl'].
  eapply Permutation_Forall; [symmetry; apply sort_perm|exact Pl'].
Qed.

(** Elements that [cmp] never separates keep their order. *)
Lemma insert_filter (f : A -> bool) (a : A) (l : list A) :
  (forall b, f a = true -> f b = true -> comes_after cmp a b = false) ->
  filter f (insert cmp a l) = filter f (a :: l).
Proof.
  intro H. induction l as [|b l IH]; [reflexivity|].
  simpl insert. destruct (comes_after cmp a b) eqn:E; [|reflexivity].
  simpl filter. rewrite IH. simpl filter.
  destruct (f a) eqn:Fa; [|reflexivity].
  destruct (f b) eqn:Fb; [|reflexivity].
  rewrite (H b eq_refl Fb) in E. discriminate.
Qed.

Lemma sort_filter (f : A -> bool) (l : list A) :
  (forall a b, f a = true -> f b = true -> comes_after cmp a b = false) ->
  filter f (sort cmp l) = filter f l.
Proof.
  intro H. induction l as [|a l IH]; [reflexivity|].
  simpl sort. rewrite insert_filter by (intro b; apply H).
  simpl. rewrite IH. reflexivity.
Qed.

End SortFacts.

Section Normalization.
Import JS Data Props Hook.
Open Scope float_scope.

Lemma adjacent_Sorted {A : Type} (R : A -> A -> bool) (l : list A) :
  Sorted (fun a b => R a b = true) l -> adjacent R l = true.
Proof.
  induction 1 as [|a l Sl IH Hd]; [reflexivity|].
  destruct l as [|b l]; [reflexivity|].
  change (adjacent R (a :: b :: l)) with (R a b && adjacent R (b :: l))%bool.
  inversion Hd as [|? ? Hab]; subst. rewrite IH, Hab. reflexivity.
Qed.

Lemma comes_after_bidOrder (a b : level) :
  comes_after bidOrder a b = (fst a <? fst b).
Proof. apply sub_sign. Qed.

Lemma comes_after_askOrder (a b : level) :
  comes_after askOrder a b = (fst b <? fst a).
Proof. apply sub_sign. Qed.

Lemma pricesAreNumbers_Forall (levels : list level) :
  pricesAreNumbers levels = true -> Forall (fun lvl => is_nan (fst lvl) = false) levels.
Proof.
  unfold pricesAreNumbers. intro H. apply Forall_forall. intros x Hx.
  rewrite forallb_forall in H. specialize (H x Hx). apply negb_true_iff in H. exact H.
Qed.

Lemma sort_bids_descending (levels : list level) :
  pricesAreNumbers levels = true -> descending (sort bidOrder levels) = true.
Proof.
  intro H. apply adjacent_Sorted.
  apply (sort_sorted bidOrder (fun lvl => is_nan (fst lvl) = false)).
  - intros a b Pa Pb. rewrite comes_after_bidOrder. apply not_ltb_leb; assumption.
  - intros a b Pa Pb. rewrite comes_after_bidOrder. apply ltb_leb.
  - apply pricesAreNumbers_Forall. exact H.
Qed.

Lemma sort_asks_ascending (levels : list level) :
  pricesAreNumbers levels = true -> ascending (sort askOrder levels) = true.
Proof.
  intro H. apply adjacent_Sorted.
  apply (sort_sorted askOrder (fun lvl => is_nan (fst lvl) = false)).
  - intros a b Pa Pb. rewrite comes_after_askOrder. intro E.
    apply not_ltb_leb; assumption.
  - intros a b Pa Pb. rewrite comes_after_askOrder. apply ltb_leb.
  - apply pricesAreNumbers_Forall. exact H.
Qed.

Lemma orderbookData_metricsEffect (now : number) (h : HookState) :
  orderbookData (metricsEffect now h) = orderbookData h.
Proof. unfold metricsEffect. destruct (0 <? renderStartTimeRef h); reflexivity. Qed.


Lemma connectionStatus_metricsEffect (now : number) (h : HookState) :
  connectionStatus (metricsEffect now h) = connectionStatus h.
Proof. unfold metricsEffect. destruct (0 <? renderStartTimeRef h); reflexivity. Qed.

(** A message of type [snapshot] or [update] replaces the snapshot by its
    normal form, whatever its strings are, and leaves the error alone. *)
Lemma onmessage_publishes (message : WebSocketMessage) (r : Readings) (h : HookState) :
  publishes message = true ->
  orderbookData (onmessage (Json message) r h) = normalize (data message) (date_now r) /\
  error (onmessage (Json message) r h) = error h /\
  connectionStatus (onmessage (Json message) r h) = connectionStatus h.
Proof.
  intro H. unfold onmessage. cbv zeta. cbn [JSON_parse]. cbv iota beta.
  unfold processWebSocketMessage. unfold publishes in H. rewrite H.
  repeat split; reflexivity.
Qed.

End Normalization.

(* ================================================================== *)
(** * What the hook publishes *)
(* ================================================================== *)

Section Published.
Import JS Data Props Hook.
Open Scope float_scope.

Lemma SFcompare_Eq_inv (x y : spec_float) :
  SFcompare x y = Some Eq ->
  x = y \/ exists s s', x = S754_zero s /\ y = S754_zero s'.
Proof.
  destruct x as [sx|sx| |sx mx ex], y as [sy|sy| |sy my ey]; simpl;
    try discriminate; try (destruct sx; discriminate); try (destruct sy; discriminate).
  - intros _. right. eauto.
  - destruct sx, sy; intro H; try discriminate; left; reflexivity.
  - destruct sx, sy; intro H; try discriminate; left;
      injection H as H;
      destruct (Z.compare_spec ex ey); try discriminate;
      destruct (Pos.compare_cont Eq mx my) eqn:E'; try discriminate;
      apply Pos.compare_eq in E'; subst; reflexivity.
Qed.

(** Two prices equal to a third are not separated by the order. *)
Lemma eqb_eqb_not_ltb (x y p : float) :
  (x =? p) = true -> (y =? p) = true -> (x <? y) = false.
Proof.
  rewrite !eqb_spec, ltb_spec. unfold SFeqb, SFltb.
  destruct (SFcompare (Prim2SF x) (Prim2SF p)) as [[]|] eqn:Ex; try discriminate.
  destruct (SFcompare (Prim2SF y) (Prim2SF p)) as [[]|] eqn:Ey; try discriminate.
  intros _ _.
  assert (Nx : Prim2SF x <> S754_nan).
  { intro N. rewrite N in Ex. discriminate. }
  destruct (SFcompare_Eq_inv _ _ Ex) as [Hx|(s1 & s2 & Hx & Hp)];
    destruct (SFcompare_Eq_inv _ _ Ey) as [Hy|(s3 & s4 & Hy & Hp')].
  - rewrite Hx, Hy. rewrite <- Hx. rewrite SFcompare_refl by assumption. reflexivity.
  - rewrite Hy, Hx, Hp'. reflexivity.
  - rewrite Hx, Hy, Hp. reflexivity.
  - rewrite Hx, Hy. reflexivity.
Qed.

Lemma levelsAt_sort_bids (p : number) (levels : list level) :
  levelsAt p (sort bidOrder levels) = levelsAt p levels.
Proof.
  apply sort_filter. intros a b Ha Hb. rewrite comes_after_bidOrder.
  apply (eqb_eqb_not_ltb _ _ p); assumption.
Qed.

Lemma levelsAt_sort_asks (p : number) (levels : list level) :
  levelsAt p (sort askOrder levels) = levelsAt p levels.
Proof.
  apply sort_filter. intros a b Ha Hb. rewrite comes_after_askOrder.
  apply (eqb_eqb_not_ltb _ _ p); assumption.
Qed.

(** C5, as stated, fails: two levels at one price are both published, in
    arrival order, so the prices are not strictly monotone and the later
    level has not replaced the earlier one. *)
Lemma duplicate_levels_are_published :
  publishes duplicateMessage = true /\
  hasUnparsable duplicateMessage = false /\
  forall h : HookState,
    bids (orderbookData (onmessage (Json duplicateMessage) readings0 h))
      = [(100, 1); (100, 2)] /\
    asks (orderbookData (onmessage (Json duplicateMessage) readings0 h))
      = [(101, 1); (101, 3)] /\
    strictlyDescending
      (bids (orderbookData (onmessage (Json duplicateMessage) readings0 h))) = false /\
    strictlyAscending
      (asks (orderbookData (onmessage (Json duplicateMessage) readings0 h))) = false.
Proof.
  split; [reflexivity|]. split; [vm_compute; reflexivity|]. intro h.
  destruct (onmessage_publishes duplicateMessage readings0 h eq_refl) as (-> & _ & _).
  repeat split; vm_compute; reflexivity.
Qed.

(** C5, amended. For a message of type [snapshot] or [update] whose prices
    parse to numbers, the published bids are in descending price order and
    the asks in ascending price order, both allowing equal neighbours; the
    published levels are the parsed levels, all of them, and the levels that
    share a price keep their arrival order. *)
Theorem published_snapshot_sorted :
  forall (message : WebSocketMessage) (r : Readings) (h : HookState) (p : number),
    publishes message = true ->
    pricesAreNumbers (parseLevels (raw_bids (data message))) = true ->
    pricesAreNumbers (parseLevels (raw_asks (data message))) = true ->
    descending (bids (orderbookData (onmessage (Json message) r h))) = true /\
    ascending (asks (orderbookData (onmessage (Json message) r h))) = true /\
    Permutation (bids (orderbookData (onmessage (Json message) r h)))
                (parseLevels (raw_bids (data message))) /\
    Permutation (asks (orderbookData (onmessage (Json message) r h)))
                (parseLevels (raw_asks (data message))) /\
    levelsAt p (bids (orderbookData (onmessage (Json message) r h)))
      = levelsAt p (parseLevels (raw_bids (data message))) /\
    levelsAt p (asks (orderbookData (onmessage (Json message) r h)))
      = levelsAt p (parseLevels (raw_asks (data message))).
Proof.
  intros message r h p Hpub Hb Ha.
  destruct (onmessage_publishes message r h Hpub) as (-> & _ & _).
  unfold normalize. cbn [bids asks].
  split; [apply sort_bids_descending; exact Hb|].
  split; [apply sort_asks_ascending; exact Ha|].
  split; [apply sort_perm|]. split; [apply sort_perm|].
  split; [apply levelsAt_sort_bids|apply levelsAt_sort_asks].
Qed.

Lemma published_snapshot_sorted_witness :
  publishes messageA = true /\
  pricesAreNumbers (parseLevels (raw_bids (data messageA))) = true /\
  pricesAreNumbers (parseLevels (raw_asks (data messageA))) = true /\
  descending (bids (orderbookData (onmessage (Json messageA) readings0
                                     (hook (mount 0))))) = true /\
  ascending (asks (orderbookData (onmessage (Json messageA) readings0
                                    (hook (mount 0))))) = true.
Proof.
  pose proof (published_snapshot_sorted messageA readings0 (hook (mount 0)) 19500
                eq_refl eq_refl eq_refl) as H.
  split; [reflexivity|]. split; [reflexivity|]. split; [reflexivity|].
  split; [exact (proj1 H)|exact (proj1 (proj2 H))].
Defined.

End Published.
(* ================================================================== *)
(** * Messages that fail to parse *)
(* ================================================================== *)

Section ParseFailure.
Import JS Data Props Hook Lifecycle.

(** A frame whose handling throws: the catch writes the error, nothing is
    published, and of the refs only the arrival mark and (when the throw
    comes from [processWebSocketMessage]) the start mark are written. *)
Lemma onmessage_rejected (f : Frame) (r : Readings) (h : HookState) :
  rejected f = true ->
  orderbookData (onmessage f r h) = orderbookData h /\
  error (onmessage f r h) = Some "Failed to parse WebSocket message"%string /\
  connectionStatus (onmessage f r h) = connectionStatus h /\
  performanceMetrics (onmessage f r h) = performanceMetrics h /\
  processingEndTimeRef (onmessage f r h) = processingEndTimeRef h /\
  renderStartTimeRef (onmessage f r h) = renderStartTimeRef h.
Proof.
  destruct f as [| |message]; [| |discriminate]; intros _; repeat split; reflexivity.
Qed.

Lemma onmessage_ignored (message : WebSocketMessage) (r : Readings) (h : HookState) :
  publishes message = false ->
  orderbookData (onmessage (Json message) r h) = orderbookData h /\
  error (onmessage (Json message) r h) = error h /\
  connectionStatus (onmessage (Json message) r h) = connectionStatus h.
Proof.
  intro H. unfold onmessage. cbv zeta. cbn [JSON_parse]. cbv iota beta.
  unfold processWebSocketMessage. unfold publishes in H. rewrite H.
  repeat split; reflexivity.
Qed.

Lemma step_message_inv (w : World) (t : N) (ws : nat) (f : Frame) (r : Readings) (w' : World) :
  step w t (EvMessage ws f r) = Some w' ->
  (clock w <= t)%N /\ nth_error (sockets w) ws = Some OPEN /\
  w' = mkWorld (onmessage f r (hook w)) (sockets w) (timers w) t.
Proof.
  unfold step. destruct (N.ltb_spec t (clock w)); [discriminate|].
  cbv zeta; unfold setClock; cbn [sockets hook timers clock].
  destruct (nth_error (sockets w) ws) as [[]|] eqn:N; try discriminate.
  intro E. injection E as <-. split; [assumption|]. split; reflexivity.
Qed.

Lemma hasUnparsable_holdsNaN (message : WebSocketMessage) (ob : OrderbookData) :
  hasUnparsable message = true ->
  Permutation (bids ob) (parseLevels (raw_bids (data message))) ->
  Permutation (asks ob) (parseLevels (raw_asks (data message))) ->
  holdsNaN ob = true.
Proof.
  unfold hasUnparsable, holdsNaN. intros H Pb Pa.
  apply existsb_exists in H. destruct H as (pq & Hin & Hnan).
  apply existsb_exists. exists (parseFloat (fst pq), parseFloat (snd pq)).
  split; [|exact Hnan].
  apply in_or_app. apply in_app_or in Hin. destruct Hin as [Hin|Hin]; [left|right].
  - apply (Permutation_in _ (Permutation_sym Pb)). unfold parseLevels.
    apply (in_map (fun pq => (parseFloat (fst pq), parseFloat (snd pq)))). exact Hin.
  - apply (Permutation_in _ (Permutation_sym Pa)). unfold parseLevels.
    apply (in_map (fun pq => (parseFloat (fst pq), parseFloat (snd pq)))). exact Hin.
Qed.

(** C2. The code diverges from the claim: a message of type [snapshot] or
    [update] one of whose price or quantity texts does not parse to a
    number is not rejected.  Whatever the state it arrives in, it replaces
    the snapshot: the published sides hold exactly the parsed levels of the
    message, so some published level holds NaN; and the error field is not
    touched. *)
Theorem unparsable_tick_is_published :
  forall (w : World) (t : N) (ws : nat) (message : WebSocketMessage) (r : Readings)
         (w' : World),
    step w t (EvMessage ws (Json message) r) = Some w' ->
    publishes message = true ->
    hasUnparsable message = true ->
    Permutation (bids (orderbookData (hook w'))) (parseLevels (raw_bids (data message))) /\
    Permutation (asks (orderbookData (hook w'))) (parseLevels (raw_asks (data message))) /\
    holdsNaN (orderbookData (hook w')) = true /\
    error (hook w') = error (hook w) /\
    connectionStatus (hook w') = connectionStatus (hook w).
Proof.
  intros w t ws message r w' Hstep Hp Hu.
  destruct (step_message_inv _ _ _ _ _ _ Hstep) as (_ & _ & ->). cbn [hook].
  destruct (onmessage_publishes message r (hook w) Hp) as (Eo & Ee & Ec).
  assert (Pb : Permutation (bids (orderbookData (onmessage (Json message) r (hook w))))
                           (parseLevels (raw_bids (data message)))).
  { rewrite Eo. unfold normalize. cbn [bids]. apply sort_perm. }
  assert (Pa : Permutation (asks (orderbookData (onmessage (Json message) r (hook w))))
                           (parseLevels (raw_asks (data message)))).
  { rewrite Eo. unfold normalize. cbn [asks]. apply sort_perm. }
  split; [exact Pb|]. split; [exact Pa|].
  split; [exact (hasUnparsable_holdsNaN message _ Hu Pb Pa)|].
  split; [exact Ee|exact Ec].
Qed.

(** The tick of scenario C, whose bid price is ["abc"], delivered after the
    message of scenario A: the snapshot is replaced by one whose only bid
    has the price NaN, and the error field stays empty. *)
Lemma unparsable_tick_is_published_witness :
  publishes malformedMessage = true /\
  hasUnparsable malformedMessage = true /\
  exists w w',
    run (mount 0%float) liveRun = Some w /\
    step w 2000 (EvMessage 0 (Json malformedMessage) readings1) = Some w' /\
    orderbookData (hook w') <> orderbookData (hook w) /\
    map (fun lvl => is_nan (fst lvl)) (bids (orderbookData (hook w'))) = [true] /\
    holdsNaN (orderbookData (hook w')) = true /\
    error (hook w) = None /\ error (hook w') = None.
Proof.
  split; [reflexivity|]. split; [vm_compute; reflexivity|].
  do 2 eexists. split; [vm_compute; reflexivity|].
  split; [vm_compute; reflexivity|].
  match goal with
  | |- orderbookData (hook ?w') <> orderbookData (hook ?w) /\ _ =>
      pose proof (unparsable_tick_is_published w 2000%N 0%nat malformedMessage readings1 w'
                    ltac:(vm_compute; reflexivity) eq_refl
                    ltac:(vm_compute; reflexivity)) as H
  end.
  split.
  { intro E. apply (f_equal (fun ob => List.length (bids ob))) in E.
    vm_compute in E. discriminate E. }
  split; [vm_compute; reflexivity|].
  split; [exact (proj1 (proj2 (proj2 H)))|].
  split; vm_compute; reflexivity.
Defined.

(** X19. A frame whose handling throws, because [JSON.parse] rejects the
    text or because the value lacks the shape [processWebSocketMessage]
    reads, leaves the published snapshot, the latency record and the render
    mark as they were and sets the error field to the parse-failure text (a
    field, not a counter); the status, the sockets and the timers are as
    before and the socket accepts the next message. *)
Theorem rejected_frame_keeps_snapshot :
  forall (w : World) (t : N) (ws : nat) (f : Frame) (r : Readings) (w' : World)
         (t' : N) (f' : Frame) (r' : Readings),
    step w t (EvMessage ws f r) = Some w' ->
    rejected f = true ->
    (t <= t')%N ->
    orderbookData (hook w') = orderbookData (hook w) /\
    error (hook w') = Some "Failed to parse WebSocket message"%string /\
    performanceMetrics (hook w') = performanceMetrics (hook w) /\
    renderStartTimeRef (hook w') = renderStartTimeRef (hook w) /\
    connectionStatus (hook w') = connectionStatus (hook w) /\
    sockets w' = sockets w /\ timers w' = timers w /\
    exists w'', step w' t' (EvMessage ws f' r') = Some w''.
Proof.
  intros w t ws f r w' t' f' r' Hstep Hf Ht.
  destruct (step_message_inv _ _ _ _ _ _ Hstep) as (Hc & Hs & ->).
  cbn [hook sockets timers].
  destruct (onmessage_rejected f r (hook w) Hf) as (E1 & E2 & E3 & E4 & _ & E6).
  repeat (split; [assumption || reflexivity|]).
  unfold step. cbn [clock sockets setClock].
  destruct (N.ltb_spec t' t); [lia|]. rewrite Hs. eauto.
Qed.

Lemma rejected_frame_keeps_snapshot_witness :
  exists w w',
    run (mount 0%float) liveRun = Some w /\
    step w 2000 (EvMessage 0 Misshapen readings1) = Some w' /\
    orderbookData (hook w') = orderbookData (hook w) /\
    error (hook w') = Some "Failed to parse WebSocket message"%string.
Proof.
  do 2 eexists. split; [vm_compute; reflexivity|].
  split; [vm_compute; reflexivity|].
  match goal with
  | |- orderbookData (hook ?w') = orderbookData (hook ?w) /\ _ =>
      pose proof (rejected_frame_keeps_snapshot w 2000 0 Misshapen readings1 w' 2000
                    NotJson readings1 ltac:(vm_compute; reflexivity) eq_refl
                    (N.le_refl _)) as H
  end.
  split; [exact (proj1 H)|exact (proj1 (proj2 H))].
Defined.

End ParseFailure.

(* ================================================================== *)
(** * Reconnection *)
(* ================================================================== *)

Section Reconnection.
Import JS Data Props Hook.
Open Scope nat_scope.

Lemma wsRef_onmessage (f : Frame) (r : Readings) (h : HookState) :
  wsRef (onmessage f r h) = wsRef h.
Proof.
  unfold onmessage. cbv zeta. destruct f as [| |message]; [reflexivity|reflexivity|].
  cbn [JSON_parse]. cbv iota beta.
  unfold processWebSocketMessage. cbv zeta.
  destruct (_ || _)%bool; reflexivity.
Qed.

Lemma wsRef_metricsEffect (now : number) (h : HookState) :
  wsRef (metricsEffect now h) = wsRef h.
Proof. unfold metricsEffect. destruct (PrimFloat.ltb _ _); reflexivity. Qed.

Lemma nth_error_current (olds : list ReadyState) (cur st : ReadyState) (ws : nat) :
  Forall (fun s => s = CLOSED) olds ->
  nth_error (olds ++ [cur]) ws = Some st -> st <> CLOSED ->
  ws = List.length olds /\ st = cur.
Proof.
  intros Ho Hn Hst.
  destruct (Nat.lt_ge_cases ws (List.length olds)) as [L|L].
  - rewrite nth_error_app1 in Hn by assumption.
    apply nth_error_In in Hn. rewrite Forall_forall in Ho.
    specialize (Ho _ Hn). contradiction.
  - rewrite nth_error_app2 in Hn by assumption.
    destruct (ws - List.length olds) as [|k] eqn:E.
    + simpl in Hn. injection Hn as <-. split; [lia|reflexivity].
    + simpl in Hn. destruct k; discriminate.
Qed.

Lemma replace_current (olds : list ReadyState) (cur st : ReadyState) :
  firstn (List.length olds) (olds ++ [cur])
    ++ st :: skipn (S (List.length olds)) (olds ++ [cur]) = olds ++ [st].
Proof.
  rewrite firstn_app, firstn_all, Nat.sub_diag. simpl firstn. rewrite app_nil_r.
  rewrite skipn_all2; [reflexivity|]. rewrite length_app. simpl. lia.
Qed.

Lemma removeTimer_single (due d : N) (rest : list N) :
  removeTimer due [d] = Some rest -> d = due /\ rest = [].
Proof.
  simpl. destruct (N.eqb_spec d due); [|discriminate].
  intro E. injection E as <-. split; [assumption|reflexivity].
Qed.

Lemma Inv_mount (dateNow : number) : Inv (mount dateNow).
Proof.
  exists [], CONNECTING. repeat split; try reflexivity.
  - constructor.
  - left. reflexivity.
Qed.

Lemma Inv_step (w : World) (t : N) (e : Event) (w' : World) :
  Inv w -> step w t e = Some w' -> Inv w'.
Proof.
  intros (olds & cur & Hs & Hr & Ho & Ht). unfold step.
  destruct (N.ltb t (clock w)); [discriminate|].
  destruct e as [ws|ws f r|ws|ws|due|ws|now]; cbv zeta; unfold setClock; cbn [sockets hook timers clock].
  - (* open *)
    destruct (nth_error (sockets w) ws) as [st|] eqn:N; [|discriminate].
    rewrite Hs in N.
    destruct st; try discriminate. intro E. injection E as <-.
    destruct (nth_error_current olds cur CONNECTING ws Ho N) as [-> <-]; [discriminate|].
    exists olds, OPEN. unfold withHook, setSocket, onopen.
    cbn [sockets hook timers clock wsRef setConnectionStatus].
    rewrite Hs, replace_current.
    repeat split; try assumption.
    destruct Ht as [Ht|[Hc _]]; [left; exact Ht|discriminate Hc].
  - (* message *)
    destruct (nth_error (sockets w) ws) as [[]|]; try discriminate.
    intro E. injection E as <-. exists olds, cur. unfold withHook.
    cbn [sockets hook timers clock]. rewrite wsRef_onmessage.
    repeat split; assumption.
  - (* error *)
    destruct (nth_error (sockets w) ws) as [[]|]; try discriminate;
      intro E; injection E as <-; exists olds, cur; unfold withHook, onerror;
      cbn [sockets hook timers clock wsRef setConnectionStatus setError];
      repeat split; assumption.
  - (* close *)
    destruct (nth_error (sockets w) ws) as [st|] eqn:N; [|discriminate].
    rewrite Hs in N.
    assert (K : st <> CLOSED ->
                Some (onclose (setSocket ws CLOSED (mkWorld (hook w) (sockets w) (timers w) t)))
                = Some w' -> Inv w').
    { intros Hst E. injection E as <-.
      destruct (nth_error_current olds cur st ws Ho N Hst) as [-> ->].
      exists olds, CLOSED. unfold onclose, setSocket.
      cbn [sockets hook timers clock wsRef setConnectionStatus].
      rewrite Hs, replace_current.
      repeat split; try assumption.
      right. split; [reflexivity|].
      destruct Ht as [->|[Hc _]]; [eauto|contradiction]. }
    destruct st; try discriminate; apply K; discriminate.
  - (* timer *)
    destruct (N.ltb t due); [discriminate|].
    destruct (removeTimer due (timers w)) as [rest|] eqn:R; [|discriminate].
    intro E. injection E as <-.
    destruct Ht as [Ht|[Hc [d Ht]]]; rewrite Ht in R; [discriminate|].
    apply removeTimer_single in R. destruct R as [-> ->]. subst cur.
    unfold reconnectTimer, currentIsClosed. cbn [hook sockets].
    rewrite Hr, Hs, nth_error_app2, Nat.sub_diag by lia. cbn [nth_error ReadyState_eqb].
    exists (olds ++ [CLOSED]), CONNECTING. unfold connectWebSocket.
    cbn [sockets hook timers clock wsRef set_wsRef].
    repeat split.
    + apply Forall_app. split; [assumption|repeat constructor].
    + left. reflexivity.
  - (* closing handshake *)
    destruct (nth_error (sockets w) ws) as [st|] eqn:N; [|discriminate].
    rewrite Hs in N.
    destruct st; try discriminate. intro E. injection E as <-.
    destruct (nth_error_current olds cur OPEN ws Ho N) as [-> <-]; [discriminate|].
    exists olds, CLOSING. unfold setSocket.
    cbn [sockets hook timers clock].
    rewrite Hs, replace_current.
    repeat split; try assumption.
    destruct Ht as [Ht|[Hc _]]; [left; exact Ht|discriminate Hc].
  - (* effect *)
    intro E. injection E as <-. exists olds, cur. unfold withHook.
    cbn [sockets hook timers clock]. rewrite wsRef_metricsEffect.
    repeat split; assumption.
Qed.

Lemma Inv_run (evs : list (N * Event)) :
  forall w w', Inv w -> run w evs = Some w' -> Inv w'.
Proof.
  induction evs as [|[t e] evs IH]; intros w w' Hi Hr; simpl in Hr.
  - injection Hr as <-. exact Hi.
  - destruct (step w t e) as [w1|] eqn:S; [|discriminate].
    apply (IH w1); [apply (Inv_step w t e); assumption|exact Hr].
Qed.

Lemma removeTimer_Forall (P : N -> Prop) (due : N) (l rest : list N) :
  removeTimer due l = Some rest -> Forall P l -> P due /\ Forall P rest.
Proof.
  revert rest. induction l as [|d l IH]; intros rest R F; [discriminate|].
  simpl in R. inversion F as [|? ? Pd Fl]; subst.
  destruct (N.eqb_spec d due).
  - injection R as <-. subst. split; assumption.
  - destruct (removeTimer due l) as [r|]; [|discriminate].
    injection R as <-. destruct (IH r eq_refl Fl) as [Pdue Fr].
    split; [assumption|constructor; assumption].
Qed.

Lemma connectionStatus_onmessage (f : Frame) (r : Readings) (h : HookState) :
  connectionStatus (onmessage f r h) = connectionStatus h.
Proof.
  destruct f as [| |message]; [reflexivity|reflexivity|].
  destruct (publishes message) eqn:P.
  - apply (onmessage_publishes message r h P).
  - apply (onmessage_ignored message r h P).
Qed.

Lemma Waiting_step (t0 : N) (w : World) (t : N) (e : Event) (w' : World) :
  Waiting t0 w -> step w t e = Some w' -> Waiting t0 w'.
Proof.
  intros (Hc & Ht & Hs). unfold step.
  destruct (N.ltb_spec t (clock w)); [discriminate|].
  destruct e as [ws|ws f r|ws|ws|due|ws|now]; cbv zeta; unfold setClock; cbn [sockets hook timers clock].
  - destruct (nth_error (sockets w) ws) as [[]|]; try discriminate.
    intro E. injection E as <-. unfold Waiting, withHook, setSocket, onopen.
    cbn [sockets hook timers clock connectionStatus setConnectionStatus].
    split; [lia|]. split; [assumption|]. left. discriminate.
  - destruct (nth_error (sockets w) ws) as [[]|]; try discriminate.
    intro E. injection E as <-. unfold Waiting, withHook.
    cbn [sockets hook timers clock]. rewrite connectionStatus_onmessage.
    split; [lia|]. split; [assumption|]. destruct Hs; [left; assumption|right; lia].
  - destruct (nth_error (sockets w) ws) as [[]|]; try discriminate;
      intro E; injection E as <-; unfold Waiting, withHook, onerror;
      cbn [sockets hook timers clock connectionStatus setConnectionStatus];
      (split; [lia|]); (split; [assumption|]); left; discriminate.
  - destruct (nth_error (sockets w) ws) as [[]|]; try discriminate;
      intro E; injection E as <-; unfold Waiting, onclose, setSocket;
      cbn [sockets hook timers clock connectionStatus setConnectionStatus];
      (split; [lia|]); (split; [constructor; [lia|assumption]|]); left; discriminate.
  - destruct (N.ltb_spec t due); [discriminate|].
    destruct (removeTimer due (timers w)) as [rest|] eqn:R; [|discriminate].
    intro E. injection E as <-.
    destruct (removeTimer_Forall _ _ _ _ R Ht) as [Hdue Hrest].
    unfold reconnectTimer. destruct (currentIsClosed _).
    + unfold Waiting, connectWebSocket. cbn [sockets hook timers clock].
      split; [lia|]. split; [assumption|]. right. lia.
    + unfold Waiting. cbn [sockets hook timers clock].
      split; [lia|]. split; [assumption|]. destruct Hs; [left; assumption|right; lia].
  - destruct (nth_error (sockets w) ws) as [[]|]; try discriminate.
    intro E. injection E as <-. unfold Waiting, setSocket.
    cbn [sockets hook timers clock].
    split; [lia|]. split; [assumption|]. destruct Hs; [left; assumption|right; lia].
  - intro E. injection E as <-. unfold Waiting, withHook.
    cbn [sockets hook timers clock]. rewrite connectionStatus_metricsEffect.
    split; [lia|]. split; [assumption|]. destruct Hs; [left; assumption|right; lia].
Qed.

Lemma Waiting_run (t0 : N) (evs : list (N * Event)) :
  forall w w', Waiting t0 w -> run w evs = Some w' -> Waiting t0 w'.
Proof.
  induction evs as [|[t e] evs IH]; intros w w' Hw Hr; simpl in Hr.
  - injection Hr as <-. exact Hw.
  - destruct (step w t e) as [w1|] eqn:S; [|discriminate].
    apply (IH w1); [apply (Waiting_step t0 w t e); assumption|exact Hr].
Qed.

(** The state right after a close event. *)
Lemma close_step (w : World) (t : N) (ws : nat) (w' : World) :
  Inv w -> step w t (EvClose ws) = Some w' ->
  connectionStatus (hook w') = disconnected /\ clock w' = t /\
  timers w' = [(t + reconnectDelay)%N] /\ currentIsClosed w' = true /\
  wsRef (hook w') = Some ws.
Proof.
  intros (olds & cur & Hs & Hr & Ho & Ht). unfold step.
  destruct (N.ltb t (clock w)); [discriminate|].
  cbv zeta; unfold setClock; cbn [sockets hook timers clock].
  destruct (nth_error (sockets w) ws) as [st|] eqn:N; [|discriminate].
  rewrite Hs in N.
  assert (K : st <> CLOSED ->
              Some (onclose (setSocket ws CLOSED (mkWorld (hook w) (sockets w) (timers w) t)))
              = Some w' ->
              connectionStatus (hook w') = disconnected /\ clock w' = t /\
              timers w' = [(t + reconnectDelay)%N] /\ currentIsClosed w' = true /\
              wsRef (hook w') = Some ws).
  { intros Hst E. injection E as <-.
    destruct (nth_error_current olds cur st ws Ho N Hst) as [-> ->].
    unfold onclose, setSocket, currentIsClosed.
    cbn [sockets hook timers clock wsRef connectionStatus setConnectionStatus].
    rewrite Hs, replace_current, Hr, nth_error_app2, Nat.sub_diag by lia.
    cbn [nth_error ReadyState_eqb].
    destruct Ht as [->|[Hc _]]; [|contradiction].
    repeat split; reflexivity. }
  destruct st; try discriminate; apply K; discriminate.
Qed.

(** C9. In every run from mount, a close event delivered at time [t] leaves
    the status [disconnected]; in every state that follows, the status is
    [connecting] only if the clock has reached [t + 5000]; and the reconnect
    timer, fired at [t + 5000], sets the status to [connecting]. *)
Theorem reconnect_after_delay :
  forall (dateNow : number) (before : list (N * Event)) (w : World) (t : N) (ws : nat)
         (w' : World) (after : list (N * Event)) (w'' : World),
    run (mount dateNow) before = Some w ->
    step w t (EvClose ws) = Some w' ->
    run w' after = Some w'' ->
    connectionStatus (hook w') = disconnected /\
    (connectionStatus (hook w'') <> connecting \/ (t + 5000 <= clock w'')%N) /\
    exists w3, step w' (t + 5000)%N (EvTimer (t + 5000)%N) = Some w3 /\
               connectionStatus (hook w3) = connecting.
Proof.
  intros dateNow before w t ws w' after w'' Hb Hc Ha.
  change 5000%N with reconnectDelay.
  pose proof (Inv_run before _ _ (Inv_mount dateNow) Hb) as Hi.
  destruct (close_step w t ws w' Hi Hc) as (Hd & Hk & Ht & Hcur & _).
  split; [exact Hd|]. split.
  - assert (W : Waiting t w').
    { unfold Waiting. rewrite Hk, Ht, Hd. split; [lia|].
      split; [constructor; [lia|constructor]|]. left. discriminate. }
    apply (Waiting_run t after w' w'' W Ha).
  - unfold step. rewrite Hk.
    destruct (N.ltb_spec (t + reconnectDelay) t); [unfold reconnectDelay in *; lia|].
    cbn [setClock timers hook sockets clock]. rewrite N.ltb_irrefl, Ht.
    cbn [removeTimer]. rewrite N.eqb_refl.
    unfold reconnectTimer.
    replace (currentIsClosed _) with true by (symmetry; exact Hcur).
    eexists. split; [reflexivity|]. reflexivity.
Qed.

Lemma reconnect_after_delay_witness :
  exists w w' w'',
    run (mount 0%float) liveRun = Some w /\
    step w 3000%N (EvClose 0) = Some w' /\
    run w' [(8000%N, EvTimer 8000%N); (8100%N, EvOpen 1)] = Some w'' /\
    connectionStatus (hook w') = disconnected /\
    (connectionStatus (hook w'') <> connecting \/ (3000 + 5000 <= clock w'')%N).
Proof.
  do 3 eexists. split; [vm_compute; reflexivity|].
  split; [vm_compute; reflexivity|]. split; [vm_compute; reflexivity|].
  match goal with
  | |- connectionStatus (hook ?w') = _ /\ (connectionStatus (hook ?w'') <> _ \/ _) =>
      pose proof (reconnect_after_delay 0%float liveRun _ 3000%N 0 w'
                    [(8000%N, EvTimer 8000%N); (8100%N, EvOpen 1)] w''
                    ltac:(vm_compute; reflexivity) ltac:(vm_compute; reflexivity)
                    ltac:(vm_compute; reflexivity)) as H
  end.
  split; [exact (proj1 H)|exact (proj1 (proj2 H))].
Defined.

End Reconnection.

(* ================================================================== *)
(** * Slippage is never below zero *)
(* ================================================================== *)

Section SlippageSign.
Import JS Data Models Props Lifecycle.
Open Scope float_scope.

Lemma ltb_zero_spec (x : float) :
  (x <? 0) = false <-> not_negative (Prim2SF x).
Proof.
  rewrite ltb_spec. change (Prim2SF 0) with (S754_zero false). unfold SFltb.
  destruct (Prim2SF x) as [s|s| |s m e]; simpl; try destruct s; simpl;
    split; intro H; try reflexivity; try exact I; try discriminate; contradiction.
Qed.

Lemma Math_max_zero (a : number) : (Math_max a 0 <? 0) = false.
Proof.
  unfold Math_max. change (is_nan 0) with false. rewrite orb_false_r.
  destruct (is_nan a) eqn:Na; [reflexivity|].
  destruct (0 <? a) eqn:L.
  - rewrite ltb_spec in *. unfold SFltb in *.
    rewrite (SFcompare_antisym (Prim2SF 0) (Prim2SF a)).
    destruct (SFcompare (Prim2SF 0) (Prim2SF a)) as [[]|]; try discriminate; reflexivity.
  - destruct (0 =? a) eqn:E; [|reflexivity].
    destruct (get_sign a); [reflexivity|].
    rewrite eqb_spec in E. rewrite ltb_spec. unfold SFeqb, SFltb in *.
    rewrite (SFcompare_antisym (Prim2SF 0) (Prim2SF a)).
    destruct (SFcompare (Prim2SF 0) (Prim2SF a)) as [[]|]; try discriminate; reflexivity.
Qed.

(** What [calculateSlippage] returns: 0 for an empty side, and otherwise
    the clamp of a slippage fraction. *)
Lemma calculateSlippage_shape (ob : OrderbookData) (q : number) (s : side) :
  calculateSlippage ob q s = Ok 0 \/
  exists sp, calculateSlippage ob q s = Ok (Math_max sp 0).
Proof.
  unfold calculateSlippage. cbv zeta.
  destruct (match s with buy => asks ob | sell => bids ob end) as [|l orders] eqn:E.
  - left. reflexivity.
  - right. cbn [List.length Nat.eqb].
    destruct (slippageMidPrice_total ob s) as [m Hm].
    { rewrite E. discriminate. }
    rewrite Hm. cbn [bind].
    destruct (walk (l :: orders) (q / m) 0) as [rem cost].
    destruct (applyPenalty_total l orders rem cost) as [c Hc].
    rewrite Hc. cbn [bind]. eauto.
Qed.

(** X1. Whatever the book, the quantity and the side, [calculateSlippage]
    returns a value that is not below zero: it is NaN or at least 0. *)
Theorem slippage_not_negative :
  forall (ob : OrderbookData) (q : number) (s : side),
    exists x, calculateSlippage ob q s = Ok x /\ (x <? 0) = false /\
              (is_nan x = true \/ (0 <=? x) = true).
Proof.
  intros ob q s.
  assert (H : exists x, calculateSlippage ob q s = Ok x /\ (x <? 0) = false).
  { destruct (calculateSlippage_shape ob q s) as [H|[sp H]]; rewrite H.
    - exists 0. split; reflexivity.
    - eexists. split; [reflexivity|apply Math_max_zero]. }
  destruct H as (x & Hx & Hn). exists x. split; [exact Hx|]. split; [exact Hn|].
  destruct (is_nan x) eqn:N; [left; reflexivity|right].
  apply not_ltb_leb; [exact N|reflexivity|exact Hn].
Qed.

(** ** The mean of two such values *)

Open Scope Z_scope.

Lemma shr_1_nonneg (mrs : shr_record) : 0 <= shr_m mrs -> 0 <= shr_m (shr_1 mrs).
Proof.
  destruct mrs as [m r s]. cbn [shr_m]. intro H.
  destruct m as [|p|p]; [simpl; lia| |lia].
  destruct p; simpl; lia.
Qed.

Lemma iter_shr_1_nonneg (k : positive) :
  forall mrs, 0 <= shr_m mrs -> 0 <= shr_m (iter_pos shr_1 k mrs).
Proof.
  induction k as [k IH|k IH|]; intros mrs H; simpl iter_pos.
  - apply IH, IH, shr_1_nonneg, H.
  - apply IH, IH, H.
  - apply shr_1_nonneg, H.
Qed.

Lemma shr_fexp_nonneg (m e : Z) (l : location) :
  0 <= m -> 0 <= shr_m (fst (shr_fexp prec emax m e l)).
Proof.
  intro H. unfold shr_fexp, shr.
  destruct (fexp prec emax (Zdigits2 m + e) - e) as [|k|k]; cbn [fst].
  - rewrite shr_record_of_loc_m. exact H.
  - apply iter_shr_1_nonneg. rewrite shr_record_of_loc_m. exact H.
  - rewrite shr_record_of_loc_m. exact H.
Qed.

Lemma round_nearest_even_nonneg (m : Z) (l : location) :
  0 <= m -> 0 <= round_nearest_even m l.
Proof.
  intro H. unfold round_nearest_even.
  destruct l as [|[]]; try lia. destruct (Z.even m); lia.
Qed.

(** Rounding a mantissa that is not negative gives zero, a finite number or
    an infinity of the requested sign, never NaN. *)
Lemma binary_round_aux_class (s : bool) (m e : Z) (l : location) :
  0 <= m ->
  match binary_round_aux prec emax s m e l with
  | S754_zero s' | S754_infinity s' | S754_finite s' _ _ => s' = s
  | S754_nan => False
  end.
Proof.
  intro H. unfold binary_round_aux.
  pose proof (shr_fexp_nonneg m e l H) as H1.
  destruct (shr_fexp prec emax m e l) as [mrs1 e1]. cbn [fst] in H1.
  pose proof (round_nearest_even_nonneg _ (loc_of_shr_record mrs1) H1) as H2.
  pose proof (shr_fexp_nonneg _ e1 loc_Exact H2) as H3.
  destruct (shr_fexp prec emax _ e1 loc_Exact) as [mrs3 e3]. cbn [fst] in H3.
  destruct (shr_m mrs3) as [|p|p]; [reflexivity| |lia].
  destruct (e3 <=? emax - prec); reflexivity.
Qed.

Lemma SFdiv_core_nonneg (m1 : positive) (e1 : Z) (m2 : positive) (e2 : Z) :
  0 <= fst (fst (SFdiv_core_binary prec emax (Zpos m1) e1 (Zpos m2) e2)).
Proof.
  unfold SFdiv_core_binary. cbv zeta.
  set (s := _ - _ - _).
  set (m' := match s with Z0 => Zpos m1 | Zpos _ => Z.shiftl (Zpos m1) s | Zneg _ => 0 end).
  assert (Hm : 0 <= m').
  { unfold m'. destruct s; try lia. apply Z.shiftl_nonneg. lia. }
  pose proof (Z.div_pos m' (Zpos m2) Hm ltac:(lia)) as Hq.
  unfold Z.div in Hq. destruct (Z.div_eucl m' (Zpos m2)) as [q r]. exact Hq.
Qed.

Lemma SFadd_not_negative (x y : spec_float) :
  valid_binary x = true -> valid_binary y = true ->
  not_negative x -> not_negative y -> not_negative (SF64add x y).
Proof.
  intros Vx Vy Nx Ny.
  destruct x as [sx|sx| |sx mx ex], y as [sy|sy| |sy my ey];
    try (destruct sx; try contradiction); try (destruct sy; try contradiction);
    try exact I.
  cbn [valid_binary] in Vx, Vy.
  destruct (bounded_digits _ _ Vx) as (Lx & _).
  destruct (bounded_digits _ _ Vy) as (Ly & _).
  unfold SF64add, SFadd, cond_Zopp.
  rewrite <- Pos2Z.inj_add. cbn [binary_normalize].
  destruct (binary_round_sign false
              (fst (shl_align mx ex (Z.min ex ey)) + fst (shl_align my ey (Z.min ex ey)))
              (Z.min ex ey) ltac:(lia)) as [(m' & e' & ->)| ->]; exact I.
Qed.

Lemma SFdiv_not_negative (x : spec_float) (m : positive) (e : Z) :
  not_negative x -> not_negative (SF64div x (S754_finite false m e)).
Proof.
  intro Nx. destruct x as [sx|sx| |sx mx ex]; try (destruct sx; try contradiction);
    try exact I.
  unfold SF64div, SFdiv.
  pose proof (SFdiv_core_nonneg mx ex m e) as H.
  destruct (SFdiv_core_binary prec emax (Zpos mx) ex (Zpos m) e) as [[mz ez] lz].
  cbn [fst] in H. cbn [xorb].
  pose proof (binary_round_aux_class false mz ez lz H) as C.
  destruct (binary_round_aux prec emax false mz ez lz) as [s|s| |s m' e'];
    try contradiction; subst; exact I.
Qed.

Close Scope Z_scope.

Lemma mean_not_negative (a b : number) :
  (a <? 0) = false -> (b <? 0) = false -> ((a + b) / 2 <? 0) = false.
Proof.
  rewrite !ltb_zero_spec. intros Ha Hb.
  rewrite div_spec, add_spec.
  change (Prim2SF 2) with (S754_finite false 4503599627370496 (-51)).
  apply SFdiv_not_negative. apply SFadd_not_negative; try apply Prim2SF_valid; assumption.
Qed.

(** X2. The [slippage] field of the aggregate result, the mean of the buy
    and the sell slippage, is never below zero: it is NaN or at least 0. *)
Theorem reported_slippage_not_negative :
  forall (Math_exp : number -> number) (ob : OrderbookData) (p : SimulationParams),
    exists r, calculateTradingMetrics Math_exp ob p = Ok r /\
              (slippage r <? 0) = false /\
              (is_nan (slippage r) = true \/ (0 <=? slippage r) = true).
Proof.
  intros Math_exp ob p.
  destruct (calculateTradingMetrics_eq Math_exp ob p)
    as (b & s & m & mt & Hb & Hs & _ & _ & H).
  eexists. split; [exact H|]. cbn [slippage].
  assert (N : ((b + s) / 2 <? 0) = false).
  { destruct (calculateSlippage_shape ob (quantity p) buy) as [E|[sp E]];
      rewrite E in Hb; injection Hb as <-;
      destruct (calculateSlippage_shape ob (quantity p) sell) as [E'|[sp' E']];
      rewrite E' in Hs; injection Hs as <-;
      apply mean_not_negative; try reflexivity; apply Math_max_zero. }
  split; [exact N|].
  destruct (is_nan ((b + s) / 2)) eqn:Nn; [left; reflexivity|right].
  apply not_ltb_leb; [exact Nn|reflexivity|exact N].
Qed.

End SlippageSign.

(* ================================================================== *)
(** * Orders the book can fill *)
(* ================================================================== *)

Section Fills.
Import JS Data Models Props Lifecycle.
Open Scope float_scope.

Lemma leb_not_ltb (x y : float) : (x <=? y) = true -> (y <? x) = false.
Proof.
  rewrite leb_spec, ltb_spec. unfold SFleb, SFltb.
  rewrite (SFcompare_antisym (Prim2SF x) (Prim2SF y)).
  destruct (SFcompare (Prim2SF x) (Prim2SF y)) as [[]|]; try discriminate; reflexivity.
Qed.

(** Once the loop has left at a level, later levels are not read. *)
Lemma walk_app (l1 l2 : list level) :
  forall r c,
    l1 <> [] -> (fst (walk l1 r c) <=? 0) = true ->
    walk (l1 ++ l2) r c = walk l1 r c.
Proof.
  induction l1 as [|[p a] rest IH]; intros r c Hne H; [congruence|].
  cbn [walk app] in *.
  destruct (r - Math_min r a <=? 0) eqn:E; [reflexivity|].
  destruct rest as [|l rest'].
  - cbn [walk fst] in H. rewrite H in E. discriminate.
  - apply IH; [discriminate|exact H].
Qed.

Lemma slippageMidPrice_withSide (s : side) (l1 l2 other : list level) (ts : number) :
  l1 <> [] ->
  slippageMidPrice (withSide s (l1 ++ l2) other ts) s
  = slippageMidPrice (withSide s l1 other ts) s.
Proof.
  intro H. destruct l1 as [|l l1]; [congruence|].
  unfold slippageMidPrice. destruct s, other; reflexivity.
Qed.

Lemma slippageMidPrice_nonempty (s : side) (walked other : list level) (ts mid : number) :
  slippageMidPrice (withSide s walked other ts) s = Ok mid -> walked <> [].
Proof.
  unfold slippageMidPrice, price_at.
  destruct s, walked, other; cbn; intro H; congruence.
Qed.

Lemma calculateSlippage_withSide (s : side) (walked other : list level)
      (ts q mid : number) :
  slippageMidPrice (withSide s walked other ts) s = Ok mid ->
  calculateSlippage (withSide s walked other ts) q s =
    (let '(remainingQuantity, totalCost) := walk walked (q / mid) 0 in
     totalCost <- applyPenalty walked remainingQuantity totalCost ;;
     Ok (Math_max (slippagePercent s (totalCost / (q / mid)) mid) 0)).
Proof.
  intro Hm. pose proof (slippageMidPrice_nonempty _ _ _ _ _ Hm) as Hne.
  unfold calculateSlippage. cbv zeta.
  replace (match s with
           | buy => asks (withSide s walked other ts)
           | sell => bids (withSide s walked other ts)
           end) with walked by (destruct s; reflexivity).
  destruct walked as [|l walked]; [congruence|].
  cbn [List.length Nat.eqb]. rewrite Hm. cbn [bind].
  destruct (walk (l :: walked) (q / mid) 0) as [rem cost].
  destruct (applyPenalty (l :: walked) rem cost); [|reflexivity].
  cbn [bind]. unfold slippagePercent. destruct s; reflexivity.
Qed.

(** X3. When the loop over the first levels [l1] of the walked side ends
    with nothing left to fill, the levels [l2] behind them play no part:
    the penalty branch is not taken and the slippage is that of the book
    cut after [l1]. *)
Theorem filled_order_ignores_deeper_levels :
  forall (s : side) (l1 l2 other : list level) (ts q mid : number),
    slippageMidPrice (withSide s l1 other ts) s = Ok mid ->
    filledWithin l1 (q / mid) = true ->
    penaltyApplies (l1 ++ l2) (q / mid) = false /\
    calculateSlippage (withSide s (l1 ++ l2) other ts) q s
    = calculateSlippage (withSide s l1 other ts) q s.
Proof.
  intros s l1 l2 other ts q mid Hm Hf.
  pose proof (slippageMidPrice_nonempty _ _ _ _ _ Hm) as Hne.
  unfold filledWithin in Hf.
  pose proof (walk_app l1 l2 (q / mid) 0 Hne Hf) as W.
  split.
  - unfold penaltyApplies. rewrite W. apply leb_not_ltb. exact Hf.
  - assert (Hm' : slippageMidPrice (withSide s (l1 ++ l2) other ts) s = Ok mid).
    { rewrite slippageMidPrice_withSide; assumption. }
    rewrite (calculateSlippage_withSide _ _ _ _ _ _ Hm').
    rewrite (calculateSlippage_withSide _ _ _ _ _ _ Hm).
    rewrite W. destruct (walk l1 (q / mid) 0) as [rem cost]. cbn [fst] in Hf.
    unfold applyPenalty. rewrite (leb_not_ltb _ _ Hf). reflexivity.
Qed.

Lemma filled_order_ignores_deeper_levels_witness :
  slippageMidPrice (withSide buy [(19550, 1.9)] (bids bookA) 0) buy = Ok 19525 /\
  filledWithin [(19550, 1.9)] (100 / 19525) = true /\
  calculateSlippage (withSide buy ([(19550, 1.9)] ++ [(19600, 2.8)]) (bids bookA) 0) 100 buy
  = calculateSlippage (withSide buy [(19550, 1.9)] (bids bookA) 0) 100 buy.
Proof.
  split; [reflexivity|]. split; [reflexivity|].
  exact (proj2 (filled_order_ignores_deeper_levels buy [(19550, 1.9)] [(19600, 2.8)]
                  (bids bookA) 0 100 19525 eq_refl eq_refl)).
Defined.

(** ** The best level alone *)

Lemma sub_diag_finite (x : float) : is_finite x = true -> x - x = 0.
Proof.
  rewrite is_finite_spec. intro H. apply Prim2SF_inj.
  rewrite sub_spec, SFsub_diag. change (Prim2SF 0) with (S754_zero false).
  destruct (Prim2SF x); try discriminate; reflexivity.
Qed.

Lemma eqb_positive_eq (x y : float) :
  (x =? y) = true -> (0 <? x) = true -> x = y.
Proof.
  rewrite eqb_spec, ltb_spec. unfold SFeqb, SFltb.
  change (Prim2SF 0) with (S754_zero false).
  destruct (SFcompare (Prim2SF x) (Prim2SF y)) as [[]|] eqn:E; try discriminate.
  intros _ Hp. destruct (SFcompare_Eq_inv _ _ E) as [H|(s & s' & H & _)].
  - apply Prim2SF_inj. exact H.
  - rewrite H in Hp. discriminate.
Qed.

Lemma Math_min_fits (b a : number) :
  (0 <? b) = true -> (b <=? a) = true -> Math_min b a = b.
Proof.
  intros Hp Hl. unfold Math_min.
  destruct (leb_not_nan _ _ Hl) as [Nb Na]. rewrite Nb, Na. cbn [orb].
  destruct (b <? a) eqn:L; [reflexivity|].
  assert (E : (b =? a) = true).
  { revert Hl L. rewrite leb_spec, ltb_spec, eqb_spec. unfold SFleb, SFltb, SFeqb.
    destruct (SFcompare (Prim2SF b) (Prim2SF a)) as [[]|]; congruence. }
  rewrite E. destruct (get_sign b); [reflexivity|].
  symmetry. apply eqb_positive_eq; assumption.
Qed.

Lemma walk_top_of_book (p a : number) (rest : list level) (b : number) :
  is_finite b = true -> (0 <? b) = true -> (b <=? a) = true ->
  walk ((p, a) :: rest) b 0 = (0, 0 + b * p).
Proof.
  intros Hf Hp Hl. cbn [walk].
  rewrite (Math_min_fits b a Hp Hl), (sub_diag_finite b Hf).
  reflexivity.
Qed.

(** X4. A positive, finite base quantity that is no more than the size of
    the best level is filled at that level alone: the result is the clamp
    of the slippage fraction of [quantity * price / quantity] against the
    mid price, in base units, with no penalty, whatever lies deeper in the
    book. *)
Theorem top_of_book_fill :
  forall (s : side) (p a : number) (rest other : list level) (ts q mid : number),
    slippageMidPrice (withSide s ((p, a) :: rest) other ts) s = Ok mid ->
    isFinite (q / mid) = true ->
    (0 <? q / mid) = true ->
    fitsTopOfBook ((p, a) :: rest) (q / mid) = true ->
    penaltyApplies ((p, a) :: rest) (q / mid) = false /\
    calculateSlippage (withSide s ((p, a) :: rest) other ts) q s
    = Ok (Math_max (slippagePercent s ((0 + q / mid * p) / (q / mid)) mid) 0).
Proof.
  intros s p a rest other ts q mid Hm Hf Hp Hl. cbn [fitsTopOfBook snd] in Hl.
  pose proof (walk_top_of_book p a rest (q / mid) Hf Hp Hl) as W.
  split.
  - unfold penaltyApplies. rewrite W. reflexivity.
  - rewrite (calculateSlippage_withSide _ _ _ _ _ _ Hm). rewrite W.
    unfold applyPenalty. change (0 <? 0) with false. reflexivity.
Qed.

Lemma top_of_book_fill_witness :
  slippageMidPrice (withSide sell (bids bookA) (asks bookA) 0) sell = Ok 19525 /\
  isFinite (100 / 19525) = true /\ (0 <? 100 / 19525) = true /\
  fitsTopOfBook (bids bookA) (100 / 19525) = true /\
  calculateSlippage (withSide sell (bids bookA) (asks bookA) 0) 100 sell
  = Ok (Math_max (slippagePercent sell ((0 + 100 / 19525 * 19500) / (100 / 19525)) 19525) 0).
Proof.
  split; [reflexivity|]. split; [reflexivity|]. split; [reflexivity|].
  split; [reflexivity|].
  exact (proj2 (top_of_book_fill sell 19500 2.5 [(19450, 3.2)] (asks bookA) 0 100 19525
                  eq_refl eq_refl eq_refl eq_refl)).
Defined.

(** ** Depth outside the band *)

Lemma filter_none {A : Type} (f : A -> bool) (l : list A) :
  forallb (fun x => negb (f x)) l = true -> filter f l = [].
Proof.
  induction l as [|x l IH]; [reflexivity|]. simpl. intro H.
  apply andb_true_iff in H. destruct H as [Hx Hl].
  apply negb_true_iff in Hx. rewrite Hx. apply IH. exact Hl.
Qed.

Lemma filter_skip {A : Type} (f : A -> bool) (x : A) (l1 far l2 : list A) :
  filter f far = [] -> filter f (x :: l1 ++ far ++ l2) = filter f (x :: l1 ++ l2).
Proof.
  intro H. change (x :: l1 ++ far ++ l2) with ([x] ++ l1 ++ far ++ l2).
  change (x :: l1 ++ l2) with ([x] ++ l1 ++ l2).
  rewrite !filter_app, H. reflexivity.
Qed.

(** X5. Levels whose price is more than 1% of the mid price away from it,
    wherever they stand behind the best level, do not change the market
    impact: only the best prices and the depth inside the band count. *)
Theorem market_impact_ignores_far_levels :
  forall (b : level) (bs1 farBids bs2 : list level)
         (a : level) (az1 farAsks az2 : list level) (ts q v : number),
    forallb (bidOutsideBand ((fst b + fst a) / 2)) farBids = true ->
    forallb (askOutsideBand ((fst b + fst a) / 2)) farAsks = true ->
    calculateMarketImpact
      (mkOrderbookData (b :: bs1 ++ farBids ++ bs2) (a :: az1 ++ farAsks ++ az2) ts) q v
    = calculateMarketImpact (mkOrderbookData (b :: bs1 ++ bs2) (a :: az1 ++ az2) ts) q v.
Proof.
  intros b bs1 farBids bs2 a az1 farAsks az2 ts q v Hb Ha.
  rewrite !calculateMarketImpact_nonempty. unfold rawMarketImpact. cbv zeta.
  cbn [bids asks].
  unfold bidOutsideBand in Hb. unfold askOutsideBand in Ha.
  apply filter_none in Hb. apply filter_none in Ha.
  unfold level, number in *.
  match goal with
  | |- context [@filter ?A ?f (b :: bs1 ++ farBids ++ bs2)] =>
      pose proof (@filter_skip A f b bs1 farBids bs2 Hb) as Eb
  end.
  match goal with
  | |- context [@filter ?A ?f (a :: az1 ++ farAsks ++ az2)] =>
      pose proof (@filter_skip A f a az1 farAsks az2 Ha) as Ea
  end.
  rewrite Eb, Ea. reflexivity.
Qed.

Lemma market_impact_ignores_far_levels_witness :
  forallb (bidOutsideBand ((fst (19500, 2.5) + fst (19550, 1.9)) / 2)) [(19000, 7)] = true /\
  forallb (askOutsideBand ((fst (19500, 2.5) + fst (19550, 1.9)) / 2)) [(20000, 9)] = true /\
  calculateMarketImpact
    (mkOrderbookData ((19500, 2.5) :: [(19450, 3.2)] ++ [(19000, 7)] ++ [])
                     ((19550, 1.9) :: [(19600, 2.8)] ++ [(20000, 9)] ++ []) 0) 100 50
  = calculateMarketImpact
      (mkOrderbookData ((19500, 2.5) :: [(19450, 3.2)] ++ [])
                       ((19550, 1.9) :: [(19600, 2.8)] ++ []) 0) 100 50.
Proof.
  split; [reflexivity|]. split; [reflexivity|].
  exact (market_impact_ignores_far_levels (19500, 2.5) [(19450, 3.2)] [(19000, 7)] []
           (19550, 1.9) [(19600, 2.8)] [(20000, 9)] [] 0 100 50 eq_refl eq_refl).
Defined.

End Fills.

(* ================================================================== *)
(** * The connection over a whole run *)
(* ================================================================== *)

Section ConnectionRuns.
Import JS Data Models Props Hook Lifecycle.

Lemma Inv2_mount (dateNow : number) : Inv2 (mount dateNow).
Proof.
  exists [], CONNECTING. repeat split; try reflexivity.
  - constructor.
  - left. split; [discriminate|reflexivity].
  - discriminate.
Qed.

Lemma Inv2_step (w : World) (t : N) (e : Event) (w' : World) :
  Inv2 w -> step w t e = Some w' -> Inv2 w'.
Proof.
  intros (olds & cur & Hs & Hr & Ho & Ht & Hc1 & Hc2). unfold step.
  destruct (N.ltb t (clock w)); [discriminate|].
  destruct e as [ws|ws f r|ws|ws|due|ws|now]; cbv zeta; unfold setClock;
    cbn [sockets hook timers clock].
  - (* open *)
    destruct (nth_error (sockets w) ws) as [st|] eqn:N; [|discriminate].
    rewrite Hs in N.
    destruct st; try discriminate. intro E. injection E as <-.
    destruct (nth_error_current olds cur CONNECTING ws Ho N) as [-> <-]; [discriminate|].
    exists olds, OPEN. unfold withHook, setSocket, onopen.
    cbn [sockets hook timers clock wsRef connectionStatus setConnectionStatus].
    rewrite Hs, replace_current.
    repeat split; try assumption; try discriminate.
    + left. split; [discriminate|].
      destruct Ht as [[_ Ht]|[Hc _]]; [exact Ht|discriminate Hc].
    + intros _. left. reflexivity.
  - (* message *)
    destruct (nth_error (sockets w) ws) as [[]|]; try discriminate.
    intro E. injection E as <-. exists olds, cur. unfold withHook.
    cbn [sockets hook timers clock].
    rewrite wsRef_onmessage, connectionStatus_onmessage.
    repeat split; assumption.
  - (* error *)
    destruct (nth_error (sockets w) ws) as [[]|]; try discriminate;
      intro E; injection E as <-; exists olds, cur; unfold withHook, onerror;
      cbn [sockets hook timers clock wsRef connectionStatus setConnectionStatus setError];
      repeat split; try assumption; discriminate.
  - (* close *)
    destruct (nth_error (sockets w) ws) as [st|] eqn:N; [|discriminate].
    rewrite Hs in N.
    assert (K : st <> CLOSED ->
                Some (onclose (setSocket ws CLOSED (mkWorld (hook w) (sockets w) (timers w) t)))
                = Some w' -> Inv2 w').
    { intros Hst E. injection E as <-.
      destruct (nth_error_current olds cur st ws Ho N Hst) as [-> ->].
      exists olds, CLOSED. unfold onclose, setSocket.
      cbn [sockets hook timers clock wsRef connectionStatus setConnectionStatus].
      rewrite Hs, replace_current.
      repeat split; try assumption; try discriminate.
      right. split; [reflexivity|].
      destruct Ht as [[_ ->]|[Hc _]]; [eauto|contradiction]. }
    destruct st; try discriminate; apply K; discriminate.
  - (* timer *)
    destruct (N.ltb t due); [discriminate|].
    destruct (removeTimer due (timers w)) as [rest|] eqn:R; [|discriminate].
    intro E. injection E as <-.
    destruct Ht as [[_ Ht]|[Hc [d Ht]]]; rewrite Ht in R; [discriminate|].
    apply removeTimer_single in R. destruct R as [-> ->]. subst cur.
    unfold reconnectTimer, currentIsClosed. cbn [hook sockets].
    rewrite Hr, Hs, nth_error_app2, Nat.sub_diag by lia. cbn [nth_error ReadyState_eqb].
    exists (olds ++ [CLOSED]), CONNECTING. unfold connectWebSocket.
    cbn [sockets hook timers clock wsRef set_wsRef connectionStatus setError
         setConnectionStatus].
    repeat split; try discriminate.
    + apply Forall_app. split; [assumption|repeat constructor].
    + left. split; [discriminate|reflexivity].
  - (* closing handshake *)
    destruct (nth_error (sockets w) ws) as [st|] eqn:N; [|discriminate].
    rewrite Hs in N.
    destruct st; try discriminate. intro E. injection E as <-.
    destruct (nth_error_current olds cur OPEN ws Ho N) as [-> <-]; [discriminate|].
    exists olds, CLOSING. unfold setSocket.
    cbn [sockets hook timers clock].
    rewrite Hs, replace_current.
    repeat split; try assumption.
    + left. split; [discriminate|].
      destruct Ht as [[_ Ht]|[Hc _]]; [exact Ht|discriminate Hc].
    + intros _. right. reflexivity.
    + intro C. specialize (Hc2 C). discriminate Hc2.
  - (* effect *)
    intro E. injection E as <-. exists olds, cur. unfold withHook.
    cbn [sockets hook timers clock].
    rewrite wsRef_metricsEffect, connectionStatus_metricsEffect.
    repeat split; assumption.
Qed.

Lemma Inv2_run (evs : list (N * Event)) :
  forall w w', Inv2 w -> run w evs = Some w' -> Inv2 w'.
Proof.
  induction evs as [|[t e] evs IH]; intros w w' Hi Hr; simpl in Hr.
  - injection Hr as <-. exact Hi.
  - destruct (step w t e) as [w1|] eqn:S; [|discriminate].
    apply (IH w1); [apply (Inv2_step w t e); assumption|exact Hr].
Qed.

Lemma filter_live_closed (olds : list ReadyState) :
  Forall (fun st => st = CLOSED) olds ->
  filter (fun st => negb (ReadyState_eqb st CLOSED)) olds = [].
Proof.
  induction 1 as [|st olds Hst _ IH]; [reflexivity|].
  subst st. simpl. exact IH.
Qed.

(** X6. In every state of every run from mount exactly one thing is in
    flight: a socket that is not closed, or a pending reconnect timer, never
    both and never two of a kind; and [wsRef] points to the socket created
    last. *)
Theorem one_connection_in_flight :
  forall (dateNow : number) (evs : list (N * Event)) (w : World),
    run (mount dateNow) evs = Some w ->
    (liveSockets w + List.length (timers w) = 1)%nat /\
    wsRef (hook w) = Some (List.length (sockets w) - 1)%nat.
Proof.
  intros dateNow evs w Hr.
  destruct (Inv2_run evs _ _ (Inv2_mount dateNow) Hr)
    as (olds & cur & Hs & Hw & Ho & Ht & _ & _).
  unfold liveSockets. rewrite Hs, filter_app, (filter_live_closed olds Ho), Hw.
  cbn [app List.length filter].
  split; [|f_equal; rewrite length_app; simpl; lia].
  destruct Ht as [[Hc ->]|[-> [due ->]]].
  - destruct cur; try contradiction; reflexivity.
  - reflexivity.
Qed.

Lemma one_connection_in_flight_witness :
  exists w,
    run (mount 0%float) liveRun = Some w /\
    (liveSockets w + List.length (timers w) = 1)%nat /\
    wsRef (hook w) = Some (List.length (sockets w) - 1)%nat.
Proof.
  eexists. split; [vm_compute; reflexivity|].
  match goal with
  | |- (liveSockets ?w + _ = _)%nat /\ _ =>
      exact (one_connection_in_flight 0%float liveRun w ltac:(vm_compute; reflexivity))
  end.
Defined.

Lemma currentState_cleanup (w : World) (olds : list ReadyState) (cur : ReadyState) :
  sockets w = olds ++ [cur] -> wsRef (hook w) = Some (List.length olds) ->
  Forall (fun st => st = CLOSED) olds ->
  currentState (cleanup w) = Some cur \/
  ((cur = OPEN \/ cur = CONNECTING) /\ currentState (cleanup w) = Some CLOSING).
Proof.
  intros Hs Hw Ho. unfold cleanup, currentState.
  destruct olds as [|old olds].
  - rewrite Hs. cbn [app nth_error].
    destruct cur; unfold setSocket; cbn [hook sockets firstn skipn app]; rewrite ?Hw, ?Hs;
      cbn [List.length nth_error]; auto.
  - rewrite Hs. cbn [app nth_error]. inversion Ho as [|? ? Hold Ho']; subst old.
    rewrite Hw, Hs. left.
    rewrite nth_error_app2, Nat.sub_diag by lia. reflexivity.
Qed.

(** X7. The status the hook has set is never ahead of the socket.  In every
    state of every run from mount, it is [connected] only for a socket that
    has opened and whose close event has not been delivered (the socket is
    open, or closing once the closing handshake has begun), and
    [connecting] only while the socket is connecting; so with a closed
    current socket it is [disconnected].  The same holds right after the
    cleanup has called [close()], where a socket that was still connecting
    is closing too. *)
Theorem status_never_ahead_of_socket :
  forall (dateNow : number) (evs : list (N * Event)) (w : World),
    run (mount dateNow) evs = Some w ->
    match connectionStatus (hook w) with
    | connected => currentState w = Some OPEN \/ currentState w = Some CLOSING
    | connecting => currentState w = Some CONNECTING
    | disconnected => True
    end /\
    match connectionStatus (hook (cleanup w)) with
    | connected =>
        currentState (cleanup w) = Some OPEN \/ currentState (cleanup w) = Some CLOSING
    | connecting =>
        currentState (cleanup w) = Some CONNECTING \/
        currentState (cleanup w) = Some CLOSING
    | disconnected => True
    end /\
    (currentState w = Some CLOSED -> connectionStatus (hook w) = disconnected).
Proof.
  intros dateNow evs w Hr.
  destruct (Inv2_run evs _ _ (Inv2_mount dateNow) Hr)
    as (olds & cur & Hs & Hw & Ho & _ & Hc1 & Hc2).
  assert (Hcur : currentState w = Some cur).
  { unfold currentState. rewrite Hw, Hs, nth_error_app2, Nat.sub_diag by lia.
    reflexivity. }
  assert (Hh : hook (cleanup w) = hook w).
  { unfold cleanup. destruct (nth_error (sockets w) 0) as [[]|]; reflexivity. }
  pose proof (currentState_cleanup w olds cur Hs Hw Ho) as Hcl.
  rewrite Hh, Hcur.
  split; [|split].
  - destruct (connectionStatus (hook w)); [| |exact I].
    + rewrite Hc2; reflexivity.
    + destruct Hc1 as [->| ->]; auto.
  - destruct (connectionStatus (hook w)); [| |exact I].
    + destruct Hcl as [->|[_ ->]]; [|auto]. rewrite Hc2; auto.
    + destruct Hcl as [->|[_ ->]]; [|auto].
      destruct Hc1 as [->| ->]; auto.
  - intro E. injection E as ->.
    destruct (connectionStatus (hook w)); [| |reflexivity].
    + discriminate Hc2; reflexivity.
    + destruct Hc1 as [E|E]; [reflexivity|discriminate E|discriminate E].
Qed.

Lemma status_never_ahead_of_socket_witness :
  exists w,
    run (mount 0%float) (liveRun ++ [(1500%N, EvClosing 0)]) = Some w /\
    connectionStatus (hook w) = connected /\
    (currentState w = Some OPEN \/ currentState w = Some CLOSING).
Proof.
  eexists. split; [vm_compute; reflexivity|]. split; [reflexivity|].
  match goal with
  | |- currentState ?w = _ \/ _ =>
      exact (proj1 (status_never_ahead_of_socket 0%float
                      (liveRun ++ [(1500%N, EvClosing 0)]) w
                      ltac:(vm_compute; reflexivity)))
  end.
Defined.

(** ** The error field *)





End ConnectionRuns.

(* ================================================================== *)
(** * Latency marks *)
(* ================================================================== *)

Section LatencyMarks.
Import JS Data Models Props Hook Lifecycle.
Open Scope float_scope.

Lemma marks_after_published (message : WebSocketMessage) (r : Readings) (h : HookState) :
  publishes message = true ->
  tickStartTimeRef (onmessage (Json message) r h) = now_tick r /\
  processingStartTimeRef (onmessage (Json message) r h) = now_processingStart r /\
  processingEndTimeRef (onmessage (Json message) r h) = now_processingEnd r /\
  renderStartTimeRef (onmessage (Json message) r h) = now_renderStart r /\
  performanceMetrics (onmessage (Json message) r h) = performanceMetrics h.
Proof.
  intro H. unfold onmessage. cbv zeta. cbn [JSON_parse]. cbv iota beta.
  unfold processWebSocketMessage. unfold publishes in H. rewrite H.
  repeat split; reflexivity.
Qed.

Lemma marks_after_unpublished (f : Frame) (r : Readings) (h : HookState) :
  published f = false ->
  tickStartTimeRef (onmessage f r h) = now_tick r /\
  processingStartTimeRef (onmessage f r h)
    = startMarkAfter f r (processingStartTimeRef h) /\
  processingEndTimeRef (onmessage f r h) = processingEndTimeRef h /\
  renderStartTimeRef (onmessage f r h) = renderStartTimeRef h /\
  performanceMetrics (onmessage f r h) = performanceMetrics h.
Proof.
  destruct f as [| |message]; intro H;
    [repeat split; reflexivity|repeat split; reflexivity|].
  cbn [published] in H.
  unfold onmessage. cbv zeta. cbn [JSON_parse]. cbv iota beta.
  unfold processWebSocketMessage. unfold publishes in H. rewrite H.
  repeat split; reflexivity.
Qed.

(** X9. The latency record is computed by the effect from the marks as they
    stand when it runs.  When the effect runs right after a published
    message (and the render mark read from the clock is positive), the
    record is that message's parse time, render time and time since
    arrival.  When a frame that is not published (rejected or ignored) is
    handled in between, the record mixes the two: the time since arrival is
    counted from the later frame, and the parse time is the end mark of the
    message minus the start mark of the later frame, unless [JSON.parse]
    threw on it.  With a mark that is not positive the record is left as
    it was. *)
Theorem latency_record_after_message :
  forall (message : WebSocketMessage) (r : Readings) (h : HookState) (now : number),
    publishes message = true ->
    performanceMetrics (metricsEffect now (onmessage (Json message) r h)) =
      (if 0 <? now_renderStart r
       then mkPerformanceMetrics
              (now_processingEnd r - now_processingStart r)
              (now - now_renderStart r)
              (now - now_tick r)
       else performanceMetrics h) /\
    forall (f' : Frame) (r' : Readings),
      published f' = false ->
      performanceMetrics
        (metricsEffect now (onmessage f' r' (onmessage (Json message) r h))) =
      (if 0 <? now_renderStart r
       then mkPerformanceMetrics
              (now_processingEnd r - startMarkAfter f' r' (now_processingStart r))
              (now - now_renderStart r)
              (now - now_tick r')
       else performanceMetrics h).
Proof.
  intros message r h now Hp.
  destruct (marks_after_published message r h Hp) as (T & S & E & R & M).
  split.
  - unfold metricsEffect. rewrite R.
    destruct (0 <? now_renderStart r); [|exact M].
    cbn [performanceMetrics setPerformanceMetrics set_renderStartTimeRef].
    rewrite T, S, E. reflexivity.
  - intros f' r' Hf.
    destruct (marks_after_unpublished f' r' (onmessage (Json message) r h) Hf)
      as (T' & S' & E' & R' & M').
    unfold metricsEffect. rewrite R', R.
    destruct (0 <? now_renderStart r); [|rewrite M'; exact M].
    cbn [performanceMetrics setPerformanceMetrics set_renderStartTimeRef].
    rewrite T', S', E', E, S. reflexivity.
Qed.

Lemma latency_record_after_message_witness :
  publishes messageA = true /\
  performanceMetrics
    (metricsEffect 1004 (onmessage (Json messageA) readings0 (hook (mount 0))))
    = mkPerformanceMetrics 1 1 4 /\
  performanceMetrics
    (metricsEffect 1004
       (onmessage Misshapen (mkReadings 1002.5 1003.5 0 0 0)
          (onmessage (Json messageA) readings0 (hook (mount 0)))))
    = mkPerformanceMetrics (-1.5) 1 1.5.
Proof.
  pose proof (latency_record_after_message messageA readings0 (hook (mount 0)) 1004
                eq_refl) as [H1 H2].
  split; [reflexivity|]. split.
  - rewrite H1. reflexivity.
  - rewrite (H2 Misshapen (mkReadings 1002.5 1003.5 0 0 0) eq_refl). reflexivity.
Defined.






End LatencyMarks.

(* ================================================================== *)
(** * Teardown *)
(* ================================================================== *)

Section Teardown.
Import JS Data Models Props Hook Lifecycle.

(** X11. Once the hook has reconnected ([wsRef] no longer points to the
    first socket), the cleanup changes nothing: the socket it closes is the
    first one, which is closed already, so the current socket stays as it
    is and a pending timer stays armed. *)
Theorem cleanup_after_reconnect :
  forall (dateNow : number) (evs : list (N * Event)) (w : World),
    run (mount dateNow) evs = Some w ->
    wsRef (hook w) <> Some 0%nat ->
    cleanup w = w.
Proof.
  intros dateNow evs w Hr Hw.
  destruct (Inv2_run evs _ _ (Inv2_mount dateNow) Hr)
    as (olds & cur & Hs & Hw' & Ho & _).
  unfold cleanup. rewrite Hs.
  destruct olds as [|st olds]; [rewrite Hw' in Hw; contradiction|].
  inversion Ho; subst. reflexivity.
Qed.

Lemma cleanup_after_reconnect_witness :
  exists w,
    run (mount 0%float)
        [(10%N, EvOpen 0); (20%N, EvClose 0); (5020%N, EvTimer 5020); (5030%N, EvOpen 1)]
      = Some w /\
    wsRef (hook w) <> Some 0%nat /\ currentState w = Some OPEN /\ cleanup w = w.
Proof.
  eexists. split; [vm_compute; reflexivity|]. split; [discriminate|].
  split; [reflexivity|].
  match goal with
  | |- cleanup ?w = _ =>
      exact (cleanup_after_reconnect 0%float
               [(10%N, EvOpen 0); (20%N, EvClose 0); (5020%N, EvTimer 5020); (5030%N, EvOpen 1)]
               w ltac:(vm_compute; reflexivity) ltac:(discriminate))
  end.
Defined.

(** X12. The cleanup does not end the reconnect loop.  Before any
    reconnect, with the first socket open or connecting, the cleanup moves
    it to [CLOSING]; its close event then arms the timer as for any other
    close, and the timer opens a new socket. *)
Theorem cleanup_arms_reconnect :
  forall (dateNow : number) (evs : list (N * Event)) (w : World) (t : N),
    run (mount dateNow) evs = Some w ->
    wsRef (hook w) = Some 0%nat ->
    currentState w = Some OPEN \/ currentState w = Some CONNECTING ->
    (clock w <= t)%N ->
    sockets (cleanup w) = [CLOSING] /\
    exists w1 w2,
      step (cleanup w) t (EvClose 0) = Some w1 /\
      timers w1 = [(t + 5000)%N] /\
      step w1 (t + 5000)%N (EvTimer (t + 5000)%N) = Some w2 /\
      sockets w2 = [CLOSED; CONNECTING] /\
      currentState w2 = Some CONNECTING.
Proof.
  intros dateNow evs w t Hr Hw Hc Ht.
  destruct (Inv2_run evs _ _ (Inv2_mount dateNow) Hr)
    as (olds & cur & Hs & Hw' & _ & Htm & _).
  rewrite Hw in Hw'. injection Hw' as Hl.
  destruct olds; [|discriminate]. cbn [app] in Hs.
  assert (Hcur : cur = OPEN \/ cur = CONNECTING).
  { unfold currentState in Hc. rewrite Hw, Hs in Hc. cbn [nth_error] in Hc.
    destruct Hc as [Hc|Hc]; injection Hc as ->; tauto. }
  assert (Htimers : timers w = []).
  { destruct Htm as [[_ H]|[H _]]; [exact H|]. destruct Hcur; congruence. }
  assert (Hcl : cleanup w = mkWorld (hook w) [CLOSING] [] (clock w)).
  { unfold cleanup. rewrite Hs. cbn [nth_error].
    destruct Hcur as [-> | ->]; unfold setSocket; rewrite Hs, Htimers; reflexivity. }
  rewrite Hcl. cbn [sockets]. split; [reflexivity|].
  unfold step. cbn [clock sockets hook timers]. cbv zeta. unfold setClock.
  cbn [clock sockets hook timers nth_error].
  destruct (N.ltb_spec t (clock w)); [lia|].
  unfold onclose, setSocket. cbn [clock sockets hook timers firstn skipn app].
  do 2 eexists. split; [reflexivity|].
  cbn [clock sockets hook timers]. split; [reflexivity|].
  change reconnectDelay with 5000%N.
  destruct (N.ltb_spec (t + 5000) t); [lia|].
  rewrite N.ltb_irrefl. cbn [removeTimer]. rewrite N.eqb_refl.
  unfold reconnectTimer, currentIsClosed.
  cbn [hook sockets wsRef setConnectionStatus]. rewrite Hw. cbn [nth_error ReadyState_eqb].
  split; [reflexivity|]. unfold connectWebSocket, currentState.
  cbn [hook sockets wsRef set_wsRef app List.length nth_error].
  split; reflexivity.
Qed.

Lemma cleanup_arms_reconnect_witness :
  exists w,
    run (mount 0%float) liveRun = Some w /\
    wsRef (hook w) = Some 0%nat /\ currentState w = Some OPEN /\
    (clock w <= 2000)%N /\ sockets (cleanup w) = [CLOSING].
Proof.
  eexists. split; [vm_compute; reflexivity|]. split; [reflexivity|].
  split; [reflexivity|]. split; [vm_compute; discriminate|].
  match goal with
  | |- sockets (cleanup ?w) = _ =>
      exact (proj1 (cleanup_arms_reconnect 0%float liveRun w 2000%N
                      ltac:(vm_compute; reflexivity) eq_refl (or_introl eq_refl)
                      ltac:(vm_compute; discriminate)))
  end.
Defined.

End Teardown.

(* ================================================================== *)
(** * Before the first tick *)
(* ================================================================== *)

Section BeforeFirstTick.
Import JS Data Models Props Hook Lifecycle.
Open Scope float_scope.

Lemma orderbookData_step (w : World) (t : N) (e : Event) (w' : World) :
  publishing e = false -> step w t e = Some w' ->
  orderbookData (hook w') = orderbookData (hook w).
Proof.
  intro P. unfold step. destruct (N.ltb t (clock w)); [discriminate|].
  destruct e as [ws|ws f r|ws|ws|due|ws|now]; cbv zeta; unfold setClock;
    cbn [sockets hook timers clock].
  - destruct (nth_error (sockets w) ws) as [[]|]; try discriminate.
    intro E. injection E as <-. reflexivity.
  - destruct (nth_error (sockets w) ws) as [[]|]; try discriminate.
    intro E. injection E as <-. unfold withHook. cbn [hook].
    destruct f as [| |message]; [reflexivity|reflexivity|].
    cbn [publishing] in P. apply (onmessage_ignored message r (hook w) P).
  - destruct (nth_error (sockets w) ws) as [[]|]; try discriminate;
      intro E; injection E as <-; reflexivity.
  - destruct (nth_error (sockets w) ws) as [[]|]; try discriminate;
      intro E; injection E as <-; reflexivity.
  - destruct (N.ltb t due); [discriminate|].
    destruct (removeTimer due (timers w)) as [rest|]; [|discriminate].
    intro E. injection E as <-. unfold reconnectTimer.
    destruct (currentIsClosed _); reflexivity.
  - destruct (nth_error (sockets w) ws) as [[]|]; try discriminate.
    intro E. injection E as <-. reflexivity.
  - intro E. injection E as <-. unfold withHook. cbn [hook].
    apply orderbookData_metricsEffect.
Qed.

(** X13. Until the first message of type [snapshot] or [update] arrives,
    whatever else happens to the connection, the snapshot is the empty book
    of the first render, and every estimate made on it is the fee rate
    alone: slippage 0, market impact 0, maker and taker 0.5 each. *)
Theorem estimate_before_first_tick :
  forall (Math_exp : number -> number) (dateNow : number) (evs : list (N * Event))
         (w : World) (p : SimulationParams),
    run (mount dateNow) evs = Some w ->
    forallb (fun te => negb (publishing (snd te))) evs = true ->
    orderbookData (hook w) = mkOrderbookData [] [] dateNow /\
    calculateTradingMetrics Math_exp (orderbookData (hook w)) p =
      Ok (mkTradingMetricsResult 0 (getFeeRate (feeTier p)) 0 (getFeeRate (feeTier p))
            0.5 0.5 "BTC"%string "USDT"%string (quantity p)).
Proof.
  intros Math_exp dateNow evs w p Hr Hq.
  assert (G : forall w0 w, run w0 evs = Some w ->
                           orderbookData (hook w) = orderbookData (hook w0)).
  { clear Hr. induction evs as [|[t e] evs IH]; intros w0 w1 Hr; simpl in Hr.
    - injection Hr as <-. reflexivity.
    - destruct (step w0 t e) as [w2|] eqn:S; [|discriminate].
      cbn [forallb snd] in Hq. apply andb_true_iff in Hq. destruct Hq as [Q Hq].
      apply negb_true_iff in Q.
      rewrite (IH Hq w2 w1 Hr). apply (orderbookData_step w0 t e); assumption. }
  rewrite (G _ _ Hr). split; [reflexivity|].
  cbn. destruct (getFeeRate_cases (feeTier p)) as [H|[H|[H|[H|H]]]]; rewrite H;
    reflexivity.
Qed.

Lemma estimate_before_first_tick_witness :
  exists w,
    run (mount 0) [(10%N, EvOpen 0); (20%N, EvMessage 0 NotJson readings0)] = Some w /\
    orderbookData (hook w) = mkOrderbookData [] [] 0.
Proof.
  eexists. split; [vm_compute; reflexivity|].
  match goal with
  | |- orderbookData (hook ?w) = _ =>
      exact (proj1 (estimate_before_first_tick (fun x => x) 0
                      [(10%N, EvOpen 0); (20%N, EvMessage 0 NotJson readings0)] w
                      (mkSimulationParams 100 50 "tier1")
                      ltac:(vm_compute; reflexivity) eq_refl))
  end.
Defined.

End BeforeFirstTick.

(* ================================================================== *)
(** * The order of binary64 numbers, through integers *)
(* ================================================================== *)

Section Ranks.
Import Lifecycle.
Open Scope Z_scope.

Lemma cond_Zopp_mul (s : bool) (a k : Z) : cond_Zopp s a * k = cond_Zopp s (a * k).
Proof. destruct s; simpl; lia. Qed.

Lemma rank_finite_bound (m : positive) (e : Z) :
  bounded prec emax m e = true ->
  0 < Zpos m * 2 ^ (e + 1074) < 2 ^ 53 * 2 ^ 2045.
Proof.
  intro B. destruct (bounded_digits _ _ B) as (L & D & _).
  assert (U : e <= 971).
  { unfold bounded in B. apply andb_true_iff in B. destruct B as [_ B].
    apply Z.leb_le in B. unfold emax, prec in B. lia. }
  pose proof (digits2_pos_bounds m) as [_ Um].
  assert (P1 : 2 ^ Zpos (digits2_pos m) <= 2 ^ 53) by (apply Z.pow_le_mono_r; lia).
  assert (P2 : 2 ^ (e + 1074) <= 2 ^ 2045) by (apply Z.pow_le_mono_r; lia).
  assert (P3 : 0 < 2 ^ (e + 1074)) by (apply Z.pow_pos_nonneg; lia).
  assert (P4 : 0 < 2 ^ 53) by (apply Z.pow_pos_nonneg; lia).
  split; [lia|].
  apply Z.lt_le_trans with (2 ^ 53 * 2 ^ (e + 1074)).
  - apply Z.mul_lt_mono_pos_r; lia.
  - apply Z.mul_le_mono_nonneg_l; lia.
Qed.

Lemma rank_aligned (m : positive) (e ez : Z) :
  - 1074 <= ez -> ez <= e ->
  Zpos (fst (shl_align m e ez)) * 2 ^ (ez + 1074) = Zpos m * 2 ^ (e + 1074).
Proof.
  intros L H. rewrite shl_align_value by assumption.
  rewrite <- Z.mul_assoc, <- Z.pow_add_r by lia. f_equal. f_equal. lia.
Qed.

(** On valid numbers other than NaN, [SFcompare] is the comparison of the
    ranks. *)
Lemma SFcompare_rank (x y : spec_float) :
  valid_binary x = true -> valid_binary y = true ->
  x <> S754_nan -> y <> S754_nan ->
  SFcompare x y = Some (rank x ?= rank y).
Proof.
  intros Vx Vy Nx Ny.
  assert (P : 0 < 2 ^ 53 * 2 ^ 2045)
    by (apply Z.mul_pos_pos; apply Z.pow_pos_nonneg; lia).
  destruct x as [sx|sx| |sx mx ex], y as [sy|sy| |sy my ey]; try congruence;
    cbn [valid_binary] in Vx, Vy;
    try pose proof (rank_finite_bound mx ex Vx);
    try pose proof (rank_finite_bound my ey Vy).
  1-8: cbn [SFcompare rank]; set (B := 2 ^ 53 * 2 ^ 2045) in *;
    try set (X := Zpos mx * 2 ^ (ex + 1074)) in *;
    try set (Y := Zpos my * 2 ^ (ey + 1074)) in *;
    try destruct sx; try destruct sy; unfold cond_Zopp; f_equal; symmetry;
    first [ apply Z.compare_eq_iff; lia
          | apply Z.compare_lt_iff; lia
          | apply Z.compare_gt_iff; lia ].
  - rewrite (SFcompare_finite_aligned sx mx ex sy my ey Vx Vy). f_equal.
    destruct (bounded_digits _ _ Vx) as (Lx & _).
    destruct (bounded_digits _ _ Vy) as (Ly & _).
    cbn [rank].
    rewrite <- (rank_aligned mx ex (Z.min ex ey)) by lia.
    rewrite <- (rank_aligned my ey (Z.min ex ey)) by lia.
    assert (K : 0 < 2 ^ (Z.min ex ey + 1074)) by (apply Z.pow_pos_nonneg; lia).
    set (k := 2 ^ (Z.min ex ey + 1074)) in *.
    set (a := Zpos (fst (shl_align mx ex (Z.min ex ey)))).
    set (b := Zpos (fst (shl_align my ey (Z.min ex ey)))).
    assert (0 < a) by (unfold a; lia). assert (0 < b) by (unfold b; lia).
    destruct sx, sy; unfold cond_Zopp;
      match goal with
      | |- (?u ?= ?v) = (?u' ?= ?v') =>
          destruct (Z.compare_spec u v); destruct (Z.compare_spec u' v')
      end; try reflexivity; nia.
Qed.

End Ranks.

Section OrderOfPrices.
Import JS Data Props Hook Lifecycle.
Open Scope float_scope.

Lemma leb_rank (x y : float) :
  (x <=? y) = true <->
  Prim2SF x <> S754_nan /\ Prim2SF y <> S754_nan /\
  (rank (Prim2SF x) <= rank (Prim2SF y))%Z.
Proof.
  rewrite leb_spec. unfold SFleb. split.
  - intro H.
    assert (Nx : Prim2SF x <> S754_nan).
    { intro N. rewrite N in H. discriminate. }
    assert (Ny : Prim2SF y <> S754_nan).
    { intro N. rewrite N in H. destruct (Prim2SF x); discriminate. }
    split; [exact Nx|]. split; [exact Ny|].
    rewrite (SFcompare_rank _ _ (Prim2SF_valid x) (Prim2SF_valid y) Nx Ny) in H.
    destruct (Z.compare_spec (rank (Prim2SF x)) (rank (Prim2SF y))); try discriminate; lia.
  - intros (Nx & Ny & H).
    rewrite (SFcompare_rank _ _ (Prim2SF_valid x) (Prim2SF_valid y) Nx Ny).
    destruct (Z.compare_spec (rank (Prim2SF x)) (rank (Prim2SF y))); try reflexivity; lia.
Qed.

Lemma leb_trans (x y z : float) :
  (x <=? y) = true -> (y <=? z) = true -> (x <=? z) = true.
Proof.
  rewrite !leb_rank. intros (Nx & Ny & H1) (_ & Nz & H2).
  split; [exact Nx|]. split; [exact Nz|]. lia.
Qed.

(** ** Input that is sorted already *)

Lemma insert_head {A : Type} (cmp : A -> A -> number) (a : A) (l : list A) :
  match l with
  | [] => True
  | b :: _ => comes_after cmp a b = false
  end ->
  insert cmp a l = a :: l.
Proof.
  destruct l as [|b l]; [reflexivity|]. simpl. intros ->. reflexivity.
Qed.

Lemma sort_sorted_input {A : Type} (cmp : A -> A -> number) (l : list A) :
  adjacent (fun a b => negb (comes_after cmp a b)) l = true -> sort cmp l = l.
Proof.
  induction l as [|a l IH]; [reflexivity|]. intro H.
  cbn [sort fold_right]. fold (sort cmp l).
  destruct l as [|b l]; [reflexivity|].
  change (adjacent _ (a :: b :: l))
    with (negb (comes_after cmp a b)
          && adjacent (fun a b => negb (comes_after cmp a b)) (b :: l))%bool in H.
  apply andb_true_iff in H. destruct H as [Hab Hl].
  rewrite (IH Hl). apply insert_head. apply negb_true_iff in Hab. exact Hab.
Qed.

Lemma adjacent_impl {A : Type} (R R' : A -> A -> bool) (l : list A) :
  (forall a b, R a b = true -> R' a b = true) ->
  adjacent R l = true -> adjacent R' l = true.
Proof.
  intro H. induction l as [|a l IH]; [reflexivity|].
  destruct l as [|b l]; [reflexivity|].
  change (adjacent R (a :: b :: l)) with (R a b && adjacent R (b :: l))%bool.
  change (adjacent R' (a :: b :: l)) with (R' a b && adjacent R' (b :: l))%bool.
  intro E. apply andb_true_iff in E. destruct E as [E1 E2].
  rewrite (H _ _ E1), (IH E2). reflexivity.
Qed.

(** X14. A message whose bids already come in descending and whose asks in
    ascending price order (equal neighbours allowed) is published level for
    level as parsed: sorting moves nothing. *)
Theorem sorted_message_published_as_is :
  forall (message : WebSocketMessage) (r : Readings) (h : HookState),
    publishes message = true ->
    descending (parseLevels (raw_bids (data message))) = true ->
    ascending (parseLevels (raw_asks (data message))) = true ->
    bids (orderbookData (onmessage (Json message) r h))
      = parseLevels (raw_bids (data message)) /\
    asks (orderbookData (onmessage (Json message) r h))
      = parseLevels (raw_asks (data message)).
Proof.
  intros message r h Hp Hb Ha.
  destruct (onmessage_publishes message r h Hp) as (-> & _ & _).
  unfold normalize. cbn [bids asks]. split; apply sort_sorted_input.
  - revert Hb. unfold descending. apply adjacent_impl. intros a b H.
    rewrite comes_after_bidOrder. apply negb_true_iff. apply leb_not_ltb. exact H.
  - revert Ha. unfold ascending. apply adjacent_impl. intros a b H.
    rewrite comes_after_askOrder. apply negb_true_iff. apply leb_not_ltb. exact H.
Qed.

Lemma sorted_message_published_as_is_witness :
  publishes messageA = true /\
  descending (parseLevels (raw_bids (data messageA))) = true /\
  ascending (parseLevels (raw_asks (data messageA))) = true /\
  bids (orderbookData (onmessage (Json messageA) readings0 (hook (mount 0))))
    = parseLevels (raw_bids (data messageA)).
Proof.
  split; [reflexivity|]. split; [reflexivity|]. split; [reflexivity|].
  exact (proj1 (sorted_message_published_as_is messageA readings0 (hook (mount 0))
                  eq_refl eq_refl eq_refl)).
Defined.

(** ** The best prices *)

Lemma sorted_head_extreme (R : level -> level -> Prop) (l : list level) :
  (forall a b c, R a b -> R b c -> R a c) ->
  (forall a, In a l -> R a a) ->
  Sorted R l ->
  forall lvl, In lvl l -> exists best rest, l = best :: rest /\ R best lvl.
Proof.
  intros T Rf S lvl Hin.
  apply Sorted_StronglySorted in S; [|exact T].
  destruct l as [|best rest]; [destruct Hin|].
  exists best, rest. split; [reflexivity|].
  destruct Hin as [<-|Hin]; [apply Rf; left; reflexivity|].
  apply StronglySorted_inv in S. destruct S as [_ F].
  rewrite Forall_forall in F. apply F. exact Hin.
Qed.

Lemma numbers_after_sort (cmp : level -> level -> number) (levels : list level) :
  pricesAreNumbers levels = true ->
  forall a, In a (sort cmp levels) -> (fst a <=? fst a) = true.
Proof.
  intros H a Ha. apply leb_refl.
  apply pricesAreNumbers_Forall in H. rewrite Forall_forall in H. apply H.
  apply (Permutation_in a (sort_perm cmp levels)). exact Ha.
Qed.

(** X15. When the prices of a published message parse to numbers, the first
    published bid carries the highest bid price of the message and the first
    published ask the lowest ask price: every level of the message is on the
    far side of (or at) the head of its list. *)
Theorem best_prices_lead_the_book :
  forall (message : WebSocketMessage) (r : Readings) (h : HookState),
    publishes message = true ->
    pricesAreNumbers (parseLevels (raw_bids (data message))) = true ->
    pricesAreNumbers (parseLevels (raw_asks (data message))) = true ->
    (forall lvl, In lvl (parseLevels (raw_bids (data message))) ->
       exists best rest,
         bids (orderbookData (onmessage (Json message) r h)) = best :: rest /\
         (fst lvl <=? fst best) = true) /\
    (forall lvl, In lvl (parseLevels (raw_asks (data message))) ->
       exists best rest,
         asks (orderbookData (onmessage (Json message) r h)) = best :: rest /\
         (fst best <=? fst lvl) = true).
Proof.
  intros message r h Hpub Hb Ha.
  destruct (onmessage_publishes message r h Hpub) as (-> & _ & _).
  unfold normalize. cbn [bids asks]. split; intros lvl Hin.
  - apply (sorted_head_extreme (fun a b => (fst b <=? fst a) = true)).
    + intros a b c H1 H2. exact (leb_trans _ _ _ H2 H1).
    + apply numbers_after_sort. exact Hb.
    + apply (sort_sorted bidOrder (fun l0 => is_nan (fst l0) = false)).
      * intros a b Pa Pb. rewrite comes_after_bidOrder. apply not_ltb_leb; assumption.
      * intros a b Pa Pb. rewrite comes_after_bidOrder. apply ltb_leb.
      * apply pricesAreNumbers_Forall. exact Hb.
    + apply (Permutation_in lvl (Permutation_sym (sort_perm bidOrder _))). exact Hin.
  - apply (sorted_head_extreme (fun a b => (fst a <=? fst b) = true)).
    + intros a b c H1 H2. exact (leb_trans _ _ _ H1 H2).
    + apply numbers_after_sort. exact Ha.
    + apply (sort_sorted askOrder (fun l0 => is_nan (fst l0) = false)).
      * intros a b Pa Pb. rewrite comes_after_askOrder. intro E.
        apply not_ltb_leb; assumption.
      * intros a b Pa Pb. rewrite comes_after_askOrder. apply ltb_leb.
      * apply pricesAreNumbers_Forall. exact Ha.
    + apply (Permutation_in lvl (Permutation_sym (sort_perm askOrder _))). exact Hin.
Qed.

Lemma best_prices_lead_the_book_witness :
  publishes messageA = true /\
  pricesAreNumbers (parseLevels (raw_bids (data messageA))) = true /\
  pricesAreNumbers (parseLevels (raw_asks (data messageA))) = true /\
  (forall lvl, In lvl (parseLevels (raw_bids (data messageA))) ->
     exists best rest,
       bids (orderbookData (onmessage (Json messageA) readings0 (hook (mount 0))))
         = best :: rest /\
       (fst lvl <=? fst best) = true).
Proof.
  split; [reflexivity|]. split; [reflexivity|]. split; [reflexivity|].
  exact (proj1 (best_prices_lead_the_book messageA readings0 (hook (mount 0))
                  eq_refl eq_refl eq_refl)).
Defined.

End OrderOfPrices.

(* ================================================================== *)
(** * The estimator on any book *)
(* ================================================================== *)

Section Guards.
Import JS Data Models Props Lifecycle.
Open Scope float_scope.

(** X16. [calculateTradingMetrics] returns a result for every book and every
    parameters: no read of [bids[0]], [asks[0]] or the last level happens on
    an empty side, also when only one side of the book is empty. *)
Theorem estimate_never_throws :
  forall (Math_exp : number -> number) (orderbook : OrderbookData)
         (params : SimulationParams),
    exists r, calculateTradingMetrics Math_exp orderbook params = Ok r.
Proof.
  intros Math_exp orderbook params.
  destruct (calculateTradingMetrics_eq Math_exp orderbook params)
    as (b & s & m & mt & _ & _ & _ & _ & E).
  rewrite E. eauto.
Qed.

Lemma eqb_sym (x y : float) : (x =? y) = (y =? x).
Proof.
  rewrite !eqb_spec. unfold SFeqb.
  rewrite (SFcompare_antisym (Prim2SF x) (Prim2SF y)).
  destruct (SFcompare (Prim2SF x) (Prim2SF y)) as [[]|]; reflexivity.
Qed.

Lemma Math_min_capped (x : number) : (1 <=? x) = true -> Math_min x 1 = 1.
Proof.
  intro H. unfold Math_min.
  destruct (leb_not_nan _ _ H) as [_ Nx]. rewrite Nx.
  change (is_nan 1) with false. cbn [orb].
  rewrite (leb_not_ltb _ _ H).
  destruct (x =? 1) eqn:E; [|reflexivity].
  rewrite eqb_sym in E.
  rewrite <- (eqb_positive_eq 1 x E eq_refl). reflexivity.
Qed.

(** X17. Once the spread of the best prices reaches 1% of their mid price,
    the maker and taker proportions no longer depend on the book: two books
    at or beyond the cap get the same split at the same volatility. *)
Theorem wide_spread_is_capped :
  forall (Math_exp : number -> number)
         (b : level) (bs : list level) (a : level) (az : list level) (ts : number)
         (b' : level) (bs' : list level) (a' : level) (az' : list level)
         (ts' : number) (volatility : number),
    (1 <=? spreadPercent (fst b) (fst a)) = true ->
    (1 <=? spreadPercent (fst b') (fst a')) = true ->
    calculateMakerTakerProportion Math_exp (mkOrderbookData (b :: bs) (a :: az) ts)
                                  volatility
    = calculateMakerTakerProportion Math_exp
        (mkOrderbookData (b' :: bs') (a' :: az') ts') volatility.
Proof.
  intros Math_exp b bs a az ts b' bs' a' az' ts' v H H'.
  unfold calculateMakerTakerProportion, price_at. cbn.
  unfold spreadPercent in H, H'.
  rewrite (Math_min_capped _ H), (Math_min_capped _ H'). reflexivity.
Qed.

Lemma wide_spread_is_capped_witness :
  (1 <=? spreadPercent 100 102) = true /\
  (1 <=? spreadPercent 50 60) = true /\
  calculateMakerTakerProportion (fun x => x)
    (mkOrderbookData [(100, 1)] [(102, 1)] 0) 30
  = calculateMakerTakerProportion (fun x => x)
      (mkOrderbookData [(50, 2); (49, 1)] [(60, 3)] 7) 30.
Proof.
  split; [reflexivity|]. split; [reflexivity|].
  exact (wide_spread_is_capped (fun x => x) (100, 1) [] (102, 1) [] 0
           (50, 2) [(49, 1)] (60, 3) [] 7 30 eq_refl eq_refl).
Defined.

End Guards.

(* ================================================================== *)
(** * The quantity field of the panel *)
(* ================================================================== *)

Section QuantityField.
Import JS Panel.

Lemma quantityAfter_snoc (typed : list string) (value : string) :
  quantityAfter (typed ++ [value]) = handleQuantityChange value (quantityAfter typed).
Proof. unfold quantityAfter. rewrite fold_left_app. reflexivity. Qed.

(** X18. Whatever is typed into the quantity field, the quantity the panel
    holds is never NaN: it is the reading of the last text that
    [parseFloat] reads as a number, and the initial 100 when there is none;
    texts that do not parse leave it as it was. *)
Theorem quantity_is_last_numeric_entry :
  forall typed : list string,
    isNaN (quantityAfter typed) = false /\
    quantityAfter typed =
      match lastNumeric typed with
      | Some value => parseFloat value
      | None => initialQuantity
      end.
Proof.
  intro typed. induction typed as [|value typed IH] using rev_ind.
  - split; reflexivity.
  - destruct IH as [N E]. rewrite quantityAfter_snoc.
    unfold lastNumeric. rewrite rev_app_distr. cbn [rev app find].
    unfold handleQuantityChange. cbv zeta.
    destruct (isNaN (parseFloat value)) eqn:P; cbn [negb].
    + split; [exact N|exact E].
    + split; [exact P|reflexivity].
Qed.

End QuantityField.
